(** * Prompt construction over Synthea tables

    A shallow embedding of [prompt_constructor.py]: the class
    [SyntheaPromptGenerator], its loader, the patient-history aggregation and
    the four prompt generators, followed by the properties of the
    specification that were checked against them.

    Modelling choices.
    - A pandas DataFrame is the list of its rows, in file order; a boolean-mask
      selection [df[mask]] is [filter]; [.iloc[0]] is the head of the
      selection and raises [IndexError] when the selection is empty.
    - Python exceptions are values of [exn]; a method that may raise returns
      [result A].
    - The date columns hold [str] right after [read_csv] and [Timestamp] once
      [load_data] has converted them.  The methods use a date only through
      [.year], [.strftime] and the comparisons, so they are written once over
      any date representation [D] with a [DateLike] instance, which is
      Python's duck typing made explicit.
    - The columns the specification lists as optional (STOP, DEATHDATE,
      REASONDESCRIPTION, UNITS) are [option]s: [None] is pandas' NaN / NaT.
    - The directory [self.data_dir] is what [pd.read_csv] finds under it; a
      FileNotFoundError is kept as its text [str(e)], which the operating
      system words and which names the file by its path under the directory. *)

From Stdlib Require Import ZArith List String Ascii Bool Lia DecimalString.
Import ListNotations.
Local Open Scope string_scope.
Local Open Scope Z_scope.

Set Implicit Arguments.

(** ** Exceptions and the error monad *)

Inductive exn : Type :=
| IndexError                          (* [.iloc[0]] on an empty selection *)
| TypeError                           (* subscripting an attribute that is still [None] *)
| AttributeError                      (* [.year] or [.strftime] on a [str] *)
| ValueError                          (* [pd.to_datetime] on text that is no date *)
| FileNotFoundError (path : string).  (* [pd.read_csv] on an absent file; the payload is
                                         the text [str(e)], which names the path *)

Definition result (A : Type) : Type := (exn + A)%type.

Definition ret {A : Type} (a : A) : result A := inr a.
Definition raise {A : Type} (e : exn) : result A := inl e.

Definition bind {A B : Type} (m : result A) (k : A -> result B) : result B :=
  match m with
  | inl e => inl e
  | inr a => k a
  end.

Notation "x <- m ;; k" := (bind m (fun x => k))
  (at level 61, m at next level, right associativity).

(** ** Text helpers *)

Definition nl : string := String (ascii_of_nat 10) EmptyString.

(** [str(n)] for a Python [int]. *)
Definition str_int (n : Z) : string := NilZero.string_of_int (Z.to_int n).

(** [%m] and [%d] of [strftime]: two digits, zero padded. *)
Definition pad2 (n : Z) : string :=
  if (0 <=? n) && (n <? 10) then "0" ++ str_int n else str_int n.

(** ** Timestamps *)

(** A [pandas.Timestamp] through the attributes the program can observe.  The
    comparison of two timestamps is chronological, which on these fields is
    the lexicographic order. *)
Record Timestamp : Type := mkTimestamp {
  year : Z;
  month : Z;
  day : Z;
  hour : Z;
  minute : Z;
  second : Z;
  microsecond : Z;
  nanosecond : Z
}.

Definition Timestamp_fields (t : Timestamp) : list Z :=
  [year t; month t; day t; hour t; minute t; second t; microsecond t; nanosecond t].

Fixpoint lex_compare (a b : list Z) : comparison :=
  match a, b with
  | [], [] => Eq
  | [], _ :: _ => Lt
  | _ :: _, [] => Gt
  | x :: a', y :: b' =>
      match x ?= y with
      | Eq => lex_compare a' b'
      | c => c
      end
  end.

Definition Timestamp_leb (a b : Timestamp) : bool :=
  match lex_compare (Timestamp_fields a) (Timestamp_fields b) with
  | Gt => false
  | _ => true
  end.

(** The order itself, stated without reference to how it is computed. *)
Inductive lex_le : list Z -> list Z -> Prop :=
| lex_le_nil : forall b, lex_le [] b
| lex_le_lt : forall x y a b, x < y -> lex_le (x :: a) (y :: b)
| lex_le_eq : forall x a b, lex_le a b -> lex_le (x :: a) (x :: b).

Definition Timestamp_le (a b : Timestamp) : Prop :=
  lex_le (Timestamp_fields a) (Timestamp_fields b).

(** A calendar date at midnight, as [pd.to_datetime] reads ["2020-01-01"]. *)
Definition midnight (y m d : Z) : Timestamp := mkTimestamp y m d 0 0 0 0 0.

(** ** Duck-typed dates *)

Class DateLike (D : Type) : Type := {
  year_of : D -> result Z;              (* [d.year] *)
  strftime_Ymd : D -> result string;    (* [d.strftime('%Y-%m-%d')] *)
  date_leb : D -> D -> bool             (* [a <= b]; [a >= b] is [date_leb b a] *)
}.

#[export] Instance DateLike_Timestamp : DateLike Timestamp := {
  year_of t := ret (year t);
  strftime_Ymd t := ret (str_int (year t) ++ "-" ++ pad2 (month t) ++ "-" ++ pad2 (day t));
  date_leb := Timestamp_leb
}.

(** An unconverted cell is a Python [str]: it has neither [.year] nor
    [.strftime], and two of them compare as text. *)
#[export] Instance DateLike_str : DateLike string := {
  year_of _ := raise AttributeError;
  strftime_Ymd _ := raise AttributeError;
  date_leb := String.leb
}.

(** ** The six tables

    One record per row, with the columns the program reads, named as in the
    CSV headers.  [D] is the representation of the date columns. *)

Module Patient.
Record t (D : Type) : Type := mk {
  Id : string;
  BIRTHDATE : D;
  DEATHDATE : option D;
  GENDER : string;
  RACE : string;
  ETHNICITY : string
}.
End Patient.

Module Encounter.
Record t (D : Type) : Type := mk {
  Id : string;
  PATIENT : string;
  START : D;
  STOP : option D;
  DESCRIPTION : string;
  REASONDESCRIPTION : option string
}.
End Encounter.

Module Condition.
Record t (D : Type) : Type := mk {
  PATIENT : string;
  START : D;
  STOP : option D;
  DESCRIPTION : string
}.
End Condition.

Module Medication.
Record t (D : Type) : Type := mk {
  PATIENT : string;
  START : D;
  STOP : option D;
  DESCRIPTION : string
}.
End Medication.

Module CarePlan.
Record t (D : Type) : Type := mk {
  PATIENT : string;
  ENCOUNTER : string;
  START : D;
  STOP : option D;
  DESCRIPTION : string
}.
End CarePlan.

Module Observation.
Record t (D : Type) : Type := mk {
  DATE : D;
  PATIENT : string;
  ENCOUNTER : string;
  DESCRIPTION : string;
  VALUE : string;
  UNITS : option string
}.
End Observation.

(** ** The generator object

    The six attributes that [__init__] sets to [None] and [load_data] fills. *)

Record SyntheaPromptGenerator (D : Type) : Type := mkGenerator {
  encounters : option (list (Encounter.t D));
  conditions : option (list (Condition.t D));
  medications : option (list (Medication.t D));
  patients : option (list (Patient.t D));
  careplans : option (list (CarePlan.t D));
  observations : option (list (Observation.t D))
}.

Definition __init__ (D : Type) : SyntheaPromptGenerator D :=
  mkGenerator None None None None None None.

(** [self.table[...]]: subscripting [None] raises [TypeError]. *)
Definition frame {R : Type} (attr : option (list R)) : result (list R) :=
  match attr with
  | None => raise TypeError
  | Some rows => ret rows
  end.

(** [selection.iloc[0]] *)
Definition iloc0 {R : Type} (selection : list R) : result R :=
  match selection with
  | [] => raise IndexError
  | row :: _ => ret row
  end.

(** [column.isna()] on one cell *)
Definition isna {A : Type} (cell : option A) : bool :=
  match cell with
  | None => true
  | Some _ => false
  end.

(** [column >= T] on one cell: a missing value compares false. *)
Definition cell_ge {D : Type} `{DateLike D} (cell : option D) (T : D) : bool :=
  match cell with
  | None => false
  | Some d => date_leb T d
  end.

(** ** Rendering helpers *)

(** The f-string of [_process_observations] for one row. *)
Definition observation_text {D : Type} (row : Observation.t D) : string :=
  Observation.DESCRIPTION row ++ ": " ++ Observation.VALUE row ++ " " ++
  match Observation.UNITS row with
  | None => ""
  | Some units => units
  end.

(** The loop appends one rendered string per row to [obs]. *)
Definition _process_observations {D : Type} (observations : list (Observation.t D))
  : list string :=
  fold_left (fun obs row => (obs ++ [observation_text row])%list) observations [].

Definition _format_list (title : string) (items : list string) : string :=
  match items with
  | [] => title ++ "None"
  | _ => title ++ String.concat nl (map (fun item => "- " ++ item) items)
  end.

Definition _format_dict (data : list (string * string)) : string :=
  String.concat nl (map (fun kv => "- " ++ fst kv ++ ": " ++ snd kv) data).

(** ** Patient history *)

Record Demographics : Type := mkDemographics {
  age : Z;
  gender : string;
  race : string;
  ethnicity : string
}.

(** [data.items()] of the demographics dict, in insertion order, each value as
    the f-string prints it. *)
Definition items (d : Demographics) : list (string * string) :=
  [("age", str_int (age d)); ("gender", gender d);
   ("race", race d); ("ethnicity", ethnicity d)].

Module History.
Record t : Type := mk {
  demographics : Demographics;
  observations : list string;
  conditions : list string;
  medications : list string;
  careplans : list string;
  encounters : list string
}.
End History.

Section Methods.
Context {D : Type} `{DateLike D}.
Variable self : SyntheaPromptGenerator D.

Definition get_patient_history (patient_id encounter_id : string) : result History.t :=
  pats <- frame (patients self) ;;
  patient <- iloc0 (filter (fun r => Patient.Id r =? patient_id)%string pats) ;;
  conds <- frame (conditions self) ;;
  let patient_conditions :=
    filter (fun r => Condition.PATIENT r =? patient_id)%string conds in
  meds <- frame (medications self) ;;
  let patient_medications :=
    filter (fun r => Medication.PATIENT r =? patient_id)%string meds in
  encs <- frame (encounters self) ;;
  let patient_encounters :=
    filter (fun r => Encounter.PATIENT r =? patient_id)%string encs in
  plans <- frame (careplans self) ;;
  let patient_careplans :=
    filter (fun r => CarePlan.PATIENT r =? patient_id)%string plans in
  encounter <- iloc0 (filter (fun r => Encounter.Id r =? encounter_id)%string encs) ;;
  obs <- frame (observations self) ;;
  let observations :=
    filter (fun r => (Observation.PATIENT r =? patient_id)%string &&
                     (Observation.ENCOUNTER r =? encounter_id)%string) obs in
  start_year <- year_of (Encounter.START encounter) ;;
  birth_year <- year_of (Patient.BIRTHDATE patient) ;;
  ret (History.mk
         (mkDemographics (start_year - birth_year)
                         (Patient.GENDER patient)
                         (Patient.RACE patient)
                         (Patient.ETHNICITY patient))
         (_process_observations observations)
         (map (@Condition.DESCRIPTION D) patient_conditions)
         (map (@Medication.DESCRIPTION D) patient_medications)
         (map (@CarePlan.DESCRIPTION D) patient_careplans)
         (map (@Encounter.DESCRIPTION D) patient_encounters)).

(** The templates are written one source line per list element; joining
    with the newline gives the text of the f-string, and a last empty
    element gives the newline that ends it. *)

Definition generate_chain_of_thought_prompt (encounter_id : string) : result string :=
  encs <- frame (encounters self) ;;
  encounter <- iloc0 (filter (fun r => Encounter.Id r =? encounter_id)%string encs) ;;
  history <- get_patient_history (Encounter.PATIENT encounter) encounter_id ;;
  ret (String.concat nl
    [ "Analyze this patient's medical history step by step:";
      "Patient Information:";
      "- Age: " ++ str_int (age (History.demographics history));
      "- Gender: " ++ gender (History.demographics history);
      "- Race: " ++ race (History.demographics history);
      "- Ethnicity: " ++ ethnicity (History.demographics history);
      "";
      "Medical History:";
      _format_list ("Conditions" ++ nl) (History.conditions history);
      _format_list ("Current Medications" ++ nl) (History.medications history);
      _format_list ("Observations" ++ nl) (History.observations history);
      "";
      "Reason through this case:";
      "1. What are the primary health concerns based on the conditions?";
      "2. How do these conditions interact with each other?";
      "3. Are the current medications appropriate for these conditions?";
      "4. What additional monitoring or interventions might be needed?";
      "5. What preventive measures should be considered?";
      "";
      "Based on this analysis, please provide:";
      "1. A prioritized list of health concerns";
      "2. Recommendations for medication adjustments";
      "3. Suggested monitoring plan";
      "4. Preventive care recommendations";
      "" ]).

Definition generate_tree_of_thoughts_prompt (encounter_id : string) : result string :=
  encs <- frame (encounters self) ;;
  encounter <- iloc0 (filter (fun r => Encounter.Id r =? encounter_id)%string encs) ;;
  history <- get_patient_history (Encounter.PATIENT encounter) encounter_id ;;
  ret (String.concat nl
    [ "Let's analyze this patient's case through multiple reasoning paths:";
      "Patient Profile:";
      _format_dict (items (History.demographics history));
      "";
      "Current Medical Status:";
      _format_list ("Active Conditions" ++ nl) (History.conditions history);
      _format_list ("Current Medications" ++ nl) (History.medications history);
      _format_list ("Observations" ++ nl) (History.observations history);
      "";
      "Path A - Diagnostic Assessment:";
      "1. What patterns emerge from the current conditions?";
      "2. Are there potential underlying conditions?";
      "3. What are the risk factors for disease progression?";
      "";
      "Path B - Treatment Optimization:";
      "1. How effective is the current medication regimen?";
      "2. What are potential drug interactions?";
      "3. What alternative treatments could be considered?";
      "";
      "Path C - Preventive Planning:";
      "1. What are the modifiable risk factors?";
      "2. What preventive screenings are needed?";
      "3. What lifestyle modifications would be beneficial?";
      "";
      "Synthesize these paths to provide:";
      "1. Comprehensive health assessment";
      "2. Treatment recommendations";
      "3. Preventive care plan";
      "" ]).

(** The first literal assigned to [prompt] in [generate_few_shot_prompt]. *)
Definition few_shot_exemplar : string :=
  String.concat nl
    [ "Here is a similar medical case and its analysis:";
      "";
      "Patient Profile:";
      "- Age: 45";
      "- Gender: F";
      "- Race: Black";
      "- Ethnicity: Non-Hispanic";
      "Conditions:";
      "- Housing instability (finding)";
      "- Financial insecurity (finding)";
      "- Social isolation (finding)";
      "- Stress (finding)";
      "- Hypertension (disorder)";
      "- Type 2 diabetes mellitus (disorder)";
      "- Depression (disorder)";
      "- Obesity (finding)";
      "Current Medications:";
      "- Metformin 500 mg oral tablet";
      "- Lisinopril 10 mg oral tablet";
      "- Sertraline 50 mg oral tablet";
      "";
      "Analysis:";
      "The patient presents with multiple socio-environmental challenges, including housing instability, ";
      "financial insecurity, and social isolation, contributing to significant stress. These factors are ";
      "likely exacerbating her chronic conditions of hypertension, type 2 diabetes, and depression. The ";
      "presence of obesity adds further risk for complications.";
      "";
      "" ].

(** The f-string appended to it by [prompt += ...]. *)
Definition few_shot_target (target_history : History.t) : string :=
  String.concat nl
    [ "Now analyze this new case:";
      "Patient Profile:";
      _format_dict (items (History.demographics target_history));
      _format_list ("Conditions" ++ nl) (History.conditions target_history);
      _format_list ("Current Medications" ++ nl) (History.medications target_history);
      _format_list ("Observations" ++ nl) (History.observations target_history);
      "";
      "Provide a similar analysis for this case.";
      "" ].

Definition generate_few_shot_prompt (encounter_id : string) : result string :=
  encs <- frame (encounters self) ;;
  encounter <- iloc0 (filter (fun r => Encounter.Id r =? encounter_id)%string encs) ;;
  target_history <- get_patient_history (Encounter.PATIENT encounter) encounter_id ;;
  let prompt := few_shot_exemplar in
  let prompt := prompt ++ few_shot_target target_history in
  ret prompt.

(** The f-string bound to [note]; its holes are the arguments, which
    [generate_medical_note_prompt] evaluates in the order of the text. *)
Definition medical_note (date visit_type : string) (age : Z) (gender : string)
    (reason : option string)
    (conditions medications ongoing_careplans new_careplans : list string) : string :=
  String.concat nl
    [ "MEDICAL NOTE";
      "Date: " ++ date;
      "Visit Type: " ++ visit_type;
      "";
      "PATIENT DEMOGRAPHICS";
      "Age: " ++ str_int age;
      "Gender: " ++ gender;
      "";
      "REASON FOR VISIT";
      match reason with
      | None => "Not provided"       (* [pd.isna(encounter['REASONDESCRIPTION'])] *)
      | Some text => text
      end;
      "";
      "ACTIVE CONDITIONS";
      _format_list "" conditions;
      "";
      "CURRENT MEDICATIONS";
      _format_list "" medications;
      "";
      "ONGOING CAREPLANS";
      _format_list "" ongoing_careplans;
      "";
      "NEW CAREPLANS";
      _format_list "" new_careplans;
      "" ].

(** The f-string bound to [prompt], around the note. *)
Definition simplification_prompt (note language : string) : string :=
  String.concat nl
    [ "Task: Simplify this medical note for the patient.";
      "";
      "Original Note:";
      note;
      "";
      "Please follow these guidelines for the simplified note:";
      "- Write the note in " ++ language;
      "- Tailor the note to their age";
      "- Use appropriate language for the audience";
      "- Maintain all important medical information";
      "- Explain medical terms when needed";
      "- Include any important instructions or follow-up steps";
      "" ].

Definition generate_medical_note_prompt (encounter_id language : string) : result string :=
  encs <- frame (encounters self) ;;
  encounter <- iloc0 (filter (fun r => Encounter.Id r =? encounter_id)%string encs) ;;
  let patient_id := Encounter.PATIENT encounter in
  pats <- frame (patients self) ;;
  patient <- iloc0 (filter (fun r => Patient.Id r =? patient_id)%string pats) ;;
  conds <- frame (conditions self) ;;
  let encounter_conditions :=
    filter (fun r => (Condition.PATIENT r =? patient_id)%string &&
                     date_leb (Condition.START r) (Encounter.START encounter) &&
                     (isna (Condition.STOP r) ||
                      cell_ge (Condition.STOP r) (Encounter.START encounter))) conds in
  meds <- frame (medications self) ;;
  let encounter_medications :=
    filter (fun r => (Medication.PATIENT r =? patient_id)%string &&
                     date_leb (Medication.START r) (Encounter.START encounter) &&
                     (isna (Medication.STOP r) ||
                      cell_ge (Medication.STOP r) (Encounter.START encounter))) meds in
  plans <- frame (careplans self) ;;
  let ongoing_careplans :=
    filter (fun r => (CarePlan.PATIENT r =? patient_id)%string &&
                     date_leb (CarePlan.START r) (Encounter.START encounter) &&
                     (isna (CarePlan.STOP r) ||
                      cell_ge (CarePlan.STOP r) (Encounter.START encounter))) plans in
  let encounter_careplans :=
    filter (fun r => (CarePlan.PATIENT r =? patient_id)%string &&
                     (CarePlan.ENCOUNTER r =? encounter_id)%string) plans in
  date <- strftime_Ymd (Encounter.START encounter) ;;
  start_year <- year_of (Encounter.START encounter) ;;
  birth_year <- year_of (Patient.BIRTHDATE patient) ;;
  let note :=
    medical_note date (Encounter.DESCRIPTION encounter) (start_year - birth_year)
      (Patient.GENDER patient) (Encounter.REASONDESCRIPTION encounter)
      (map (@Condition.DESCRIPTION D) encounter_conditions)
      (map (@Medication.DESCRIPTION D) encounter_medications)
      (map (@CarePlan.DESCRIPTION D) ongoing_careplans)
      (map (@CarePlan.DESCRIPTION D) encounter_careplans) in
  let prompt := simplification_prompt note language in
  ret prompt.

End Methods.

(** ** Loading

    The directory [self.data_dir] as [pd.read_csv] sees it: under each of the
    six file names either nothing, or the rows of the file with the date
    columns still text.  [not_found name] is the text of the FileNotFoundError
    raised for [self.data_dir / name] when that file is absent; it comes from
    the operating system and spells the path out, directory included. *)

Record DataDir : Type := mkDataDir {
  encounters_csv : option (list (Encounter.t string));
  conditions_csv : option (list (Condition.t string));
  medications_csv : option (list (Medication.t string));
  patients_csv : option (list (Patient.t string));
  careplans_csv : option (list (CarePlan.t string));
  observations_csv : option (list (Observation.t string));
  not_found : string -> string
}.

(** [pd.read_csv(self.data_dir / name)], given what the directory holds under
    [name] and the text of the error for an absent file. *)
Definition read_csv {R : Type} (error : string) (file : option (list R)) : result (list R) :=
  match file with
  | None => raise (FileNotFoundError error)
  | Some rows => ret rows
  end.

(** [self.attr = pd.read_csv(...)] followed by the rest of the [try] body: the
    assignment happens only when the read returned, and an exception leaves
    the object as the earlier assignments made it. *)
Definition assign {R S : Type} (read : result R) (setattr : R -> S -> S)
    (rest : S -> S * result unit) (self : S) : S * result unit :=
  match read with
  | inl e => (self, inl e)
  | inr rows => rest (setattr rows self)
  end.

Section Setters.
Variable D : Type.
Let G := SyntheaPromptGenerator D.

Definition set_encounters (v : list (Encounter.t D)) (self : G) : G :=
  mkGenerator (Some v) (conditions self) (medications self)
              (patients self) (careplans self) (observations self).
Definition set_conditions (v : list (Condition.t D)) (self : G) : G :=
  mkGenerator (encounters self) (Some v) (medications self)
              (patients self) (careplans self) (observations self).
Definition set_medications (v : list (Medication.t D)) (self : G) : G :=
  mkGenerator (encounters self) (conditions self) (Some v)
              (patients self) (careplans self) (observations self).
Definition set_patients (v : list (Patient.t D)) (self : G) : G :=
  mkGenerator (encounters self) (conditions self) (medications self)
              (Some v) (careplans self) (observations self).
Definition set_careplans (v : list (CarePlan.t D)) (self : G) : G :=
  mkGenerator (encounters self) (conditions self) (medications self)
              (patients self) (Some v) (observations self).
Definition set_observations (v : list (Observation.t D)) (self : G) : G :=
  mkGenerator (encounters self) (conditions self) (medications self)
              (patients self) (careplans self) (Some v).
End Setters.

(** The six reads, in source order. *)
Definition read_tables (dir : DataDir) (self : SyntheaPromptGenerator string)
  : SyntheaPromptGenerator string * result unit :=
  assign (read_csv (not_found dir "encounters.csv") (encounters_csv dir)) (@set_encounters string)
  (assign (read_csv (not_found dir "conditions.csv") (conditions_csv dir)) (@set_conditions string)
  (assign (read_csv (not_found dir "medications.csv") (medications_csv dir)) (@set_medications string)
  (assign (read_csv (not_found dir "patients.csv") (patients_csv dir)) (@set_patients string)
  (assign (read_csv (not_found dir "careplans.csv") (careplans_csv dir)) (@set_careplans string)
  (assign (read_csv (not_found dir "observations.csv") (observations_csv dir)) (@set_observations string)
  (fun self => (self, ret tt))))))) self.

Fixpoint traverse {A B : Type} (f : A -> result B) (l : list A) : result (list B) :=
  match l with
  | [] => ret []
  | a :: l' => b <- f a ;; bs <- traverse f l' ;; ret (b :: bs)
  end.

(** [str(e)] for the exception the handler prints: a FileNotFoundError is
    kept as that text, which is all the program reads of it. *)
Definition str_exn (e : exn) : string :=
  match e with
  | FileNotFoundError text => text
  | _ => ""
  end.

(** How a call of [load_data] ends. *)
Inductive load_outcome : Type :=
| Returned (self : SyntheaPromptGenerator Timestamp)
    (* all six tables read and every date column converted *)
| RaisedReading (e : exn) (stdout : string) (self : SyntheaPromptGenerator string)
    (* a read raised: the handler printed [stdout] and re-raised [e]; [self]
       keeps the tables assigned before it, unconverted *)
| RaisedConverting (e : exn).
    (* [pd.to_datetime] raised; the handler does not catch it *)

Section Loading.
(** [pd.to_datetime(text).tz_localize(None)] on one cell; [None] when pandas
    rejects the text. *)
Variable to_datetime : string -> option Timestamp.

Definition convert (cell : string) : result Timestamp :=
  match to_datetime cell with
  | Some t => ret t
  | None => raise ValueError
  end.

(** A missing cell (NaN) becomes NaT. *)
Definition convert_opt (cell : option string) : result (option Timestamp) :=
  match cell with
  | None => ret None
  | Some text => t <- convert text ;; ret (Some t)
  end.

(** The conversion of a column raises as soon as one of its cells is no
    date, and the exception is the same whichever cell it is, so each table
    is converted a row at a time. *)
Definition convert_encounter (r : Encounter.t string) : result (Encounter.t Timestamp) :=
  start <- convert (Encounter.START r) ;;
  stop <- convert_opt (Encounter.STOP r) ;;
  ret (Encounter.mk (Encounter.Id r) (Encounter.PATIENT r) start stop
                    (Encounter.DESCRIPTION r) (Encounter.REASONDESCRIPTION r)).

Definition convert_condition (r : Condition.t string) : result (Condition.t Timestamp) :=
  start <- convert (Condition.START r) ;;
  stop <- convert_opt (Condition.STOP r) ;;
  ret (Condition.mk (Condition.PATIENT r) start stop (Condition.DESCRIPTION r)).

Definition convert_medication (r : Medication.t string) : result (Medication.t Timestamp) :=
  start <- convert (Medication.START r) ;;
  stop <- convert_opt (Medication.STOP r) ;;
  ret (Medication.mk (Medication.PATIENT r) start stop (Medication.DESCRIPTION r)).

Definition convert_careplan (r : CarePlan.t string) : result (CarePlan.t Timestamp) :=
  start <- convert (CarePlan.START r) ;;
  stop <- convert_opt (CarePlan.STOP r) ;;
  ret (CarePlan.mk (CarePlan.PATIENT r) (CarePlan.ENCOUNTER r) start stop
                   (CarePlan.DESCRIPTION r)).

Definition convert_patient (r : Patient.t string) : result (Patient.t Timestamp) :=
  birth <- convert (Patient.BIRTHDATE r) ;;
  death <- convert_opt (Patient.DEATHDATE r) ;;
  ret (Patient.mk (Patient.Id r) birth death (Patient.GENDER r)
                  (Patient.RACE r) (Patient.ETHNICITY r)).

Definition convert_observation (r : Observation.t string) : result (Observation.t Timestamp) :=
  date <- convert (Observation.DATE r) ;;
  ret (Observation.mk date (Observation.PATIENT r) (Observation.ENCOUNTER r)
                      (Observation.DESCRIPTION r) (Observation.VALUE r)
                      (Observation.UNITS r)).

(** [getattr(self, df_name).columns]: on [None] that is an AttributeError. *)
Definition columns {R : Type} (attr : option (list R)) : result (list R) :=
  match attr with
  | None => raise AttributeError
  | Some rows => ret rows
  end.

(** The loop over [date_columns], in the order of the dict. *)
Definition convert_tables (self : SyntheaPromptGenerator string)
  : result (SyntheaPromptGenerator Timestamp) :=
  encs <- columns (encounters self) ;;
  encs <- traverse convert_encounter encs ;;
  conds <- columns (conditions self) ;;
  conds <- traverse convert_condition conds ;;
  meds <- columns (medications self) ;;
  meds <- traverse convert_medication meds ;;
  plans <- columns (careplans self) ;;
  plans <- traverse convert_careplan plans ;;
  pats <- columns (patients self) ;;
  pats <- traverse convert_patient pats ;;
  obs <- columns (observations self) ;;
  obs <- traverse convert_observation obs ;;
  ret (mkGenerator (Some encs) (Some conds) (Some meds)
                   (Some pats) (Some plans) (Some obs)).

Definition load_data (dir : DataDir) (self : SyntheaPromptGenerator string)
  : load_outcome :=
  match read_tables dir self with
  | (self, inl e) =>
      (* except FileNotFoundError as e: print(...); raise *)
      RaisedReading e ("Error loading Synthea data: " ++ str_exn e ++ nl) self
  | (self, inr _) =>
      match convert_tables self with
      | inl e => RaisedConverting e
      | inr self => Returned self
      end
  end.

End Loading.

(** ** Vocabulary of the specification *)

(** The number of rows of a table that satisfy a condition. *)
Fixpoint count_rows {R : Type} (matches : R -> bool) (rows : list R) : nat :=
  match rows with
  | [] => O
  | row :: rest => if matches row then S (count_rows matches rest) else count_rows matches rest
  end.

(** "Active at T": start <= T and (stop absent or stop >= T). *)
Definition active_at (start : Timestamp) (stop : option Timestamp) (T : Timestamp) : Prop :=
  Timestamp_le start T /\
  (stop = None \/ exists s, stop = Some s /\ Timestamp_le T s).

(** Each item prefixed with "- ", the items separated by newlines. *)
Fixpoint bullets (items : list string) : string :=
  match items with
  | [] => ""
  | [item] => "- " ++ item
  | item :: rest => "- " ++ item ++ nl ++ bullets rest
  end.

(** "{description}: {value} {unit}", the unit empty when absent. *)
Definition rendered_observation (description value : string) (unit : option string) : string :=
  match unit with
  | None => description ++ ": " ++ value ++ " "
  | Some u => description ++ ": " ++ value ++ " " ++ u
  end.

(** The text of the "REASON FOR VISIT" section. *)
Definition reason_for_visit (reason : option string) : string :=
  match reason with
  | None => "Not provided"
  | Some text => text
  end.

(** The simplification prompt up to the "REASON FOR VISIT" header. *)
Definition prompt_until_reason (date visit_type : string) (age : Z) (gender : string)
  : string :=
  "Task: Simplify this medical note for the patient." ++ nl ++ nl ++
  "Original Note:" ++ nl ++
  "MEDICAL NOTE" ++ nl ++
  "Date: " ++ date ++ nl ++
  "Visit Type: " ++ visit_type ++ nl ++ nl ++
  "PATIENT DEMOGRAPHICS" ++ nl ++
  "Age: " ++ str_int age ++ nl ++
  "Gender: " ++ gender ++ nl ++ nl.

(** ** A small clinic, used to run the methods *)

Module Clinic.

Definition T0 : Timestamp := midnight 2020 1 1.

(** Born on the last day of 2000, seen on the first day of 2020. *)
Definition p1 : Patient.t Timestamp :=
  Patient.mk "p1" (midnight 2000 12 31) None "M" "white" "nonhispanic".
Definition p2 : Patient.t Timestamp :=
  Patient.mk "p2" (midnight 1990 6 15) None "F" "asian" "nonhispanic".
Definition the_patients : list (Patient.t Timestamp) := [p1; p2].

Definition e1 : Encounter.t Timestamp :=
  Encounter.mk "e1" "p1" T0 None "Checkup" None.
Definition e2 : Encounter.t Timestamp :=
  Encounter.mk "e2" "p2" (midnight 2021 3 4) None "Urgent care" (Some "Cough").
Definition the_encounters : list (Encounter.t Timestamp) := [e1; e2].

Definition starts_that_day : Condition.t Timestamp :=
  Condition.mk "p1" T0 None "Starts that day".
Definition stops_that_day : Condition.t Timestamp :=
  Condition.mk "p1" (midnight 2019 12 1) (Some T0) "Stops that day".
Definition starts_later : Condition.t Timestamp :=
  Condition.mk "p1" (midnight 2020 1 2) None "Starts later".
Definition stopped_before : Condition.t Timestamp :=
  Condition.mk "p1" (midnight 2018 1 1) (Some (midnight 2019 12 31)) "Stopped before".
Definition the_conditions : list (Condition.t Timestamp) :=
  [ Condition.mk "p1" (midnight 2019 5 1) None "Hypertension";
    starts_that_day; stops_that_day; starts_later; stopped_before;
    Condition.mk "p2" (midnight 2019 5 1) None "Asthma" ].

Definition the_medications : list (Medication.t Timestamp) :=
  [ Medication.mk "p1" (midnight 2019 5 1) None "Lisinopril";
    Medication.mk "p1" (midnight 2018 1 1) (Some (midnight 2018 2 1)) "Amoxicillin" ].

Definition the_careplans : list (CarePlan.t Timestamp) :=
  [ CarePlan.mk "p1" "e1" T0 None "Diet";
    CarePlan.mk "p1" "e0" (midnight 2017 1 1) (Some (midnight 2017 6 1)) "Physiotherapy" ].

Definition the_observations : list (Observation.t Timestamp) :=
  [ Observation.mk T0 "p1" "e1" "Body Height" "170" None;
    Observation.mk T0 "p1" "e1" "Body Height" "170" (Some "cm") ].

Definition generator : SyntheaPromptGenerator Timestamp :=
  mkGenerator (Some the_encounters) (Some the_conditions) (Some the_medications)
              (Some the_patients) (Some the_careplans) (Some the_observations).

(** The text of the error for a file absent from the directory ["data"]. *)
Definition not_found_in_data (name : string) : string :=
  "[Errno 2] No such file or directory: 'data/" ++ name ++ "'".

(** A data directory, opened as ["data"], from which [patients.csv] is
    missing. *)
Definition dir_without_patients : DataDir :=
  mkDataDir
    (Some [Encounter.mk "e1" "p1" "2020-01-01" None "Checkup" None])
    (Some [Condition.mk "p1" "2019-05-01" None "Hypertension"])
    (Some [])
    None
    (Some [])
    (Some [])
    not_found_in_data.

(** A complete directory, and a reader of the two dates it contains. *)
Definition dir_complete : DataDir :=
  mkDataDir
    (Some [Encounter.mk "e1" "p1" "2020-01-01" None "Checkup" None])
    (Some [Condition.mk "p1" "2019-05-01" None "Hypertension"])
    (Some [])
    (Some [Patient.mk "p1" "2000-12-31" None "M" "white" "nonhispanic"])
    (Some [])
    (Some [])
    not_found_in_data.

Definition to_datetime (text : string) : option Timestamp :=
  if (text =? "2020-01-01")%string then Some (midnight 2020 1 1)
  else if (text =? "2019-05-01")%string then Some (midnight 2019 5 1)
  else if (text =? "2000-12-31")%string then Some (midnight 2000 12 31)
  else None.

End Clinic.

(** ** The command line

    The block under [if __name__ == "__main__"], from the parsed arguments
    on: what it writes to standard output and how it ends.  [listdir] is the
    file system: the directory found under each path. *)

Module Args.
Record t : Type := mk {
  data_path : string;
  patient : string;
  encounter : string;
  chain : bool;
  tree : bool;
  few_shot : bool;
  simplification : bool;
  language : string
}.
End Args.

(** ["-" * 50] *)
Definition dashes : string := string_of_list_ascii (repeat "-"%char 50).

(** The text written to standard output so far, and the exception that ended
    the run if one did. *)
Definition run : Type := (string * result unit)%type.

(** [print(header); print("-" * 50); print(prompt)]: the argument of the last
    [print] is evaluated after the first two lines are written. *)
Definition print_section (header : string) (prompt : result string) : run :=
  match prompt with
  | inl e => (header ++ nl ++ dashes ++ nl, inl e)
  | inr text => (header ++ nl ++ dashes ++ nl ++ text ++ nl, ret tt)
  end.

(** An [if] whose flag is not set. *)
Definition skip : run := ("", ret tt).

(** Two statements in sequence: the second runs unless the first raised. *)
Definition andthen (first next : run) : run :=
  match first with
  | (out, inl e) => (out, inl e)
  | (out, inr _) => (out ++ fst next, snd next)
  end.

Definition main (to_datetime : string -> option Timestamp) (listdir : string -> DataDir)
    (args : Args.t) : run :=
  (* generator = SyntheaPromptGenerator(args.data_path); generator.load_data() *)
  match load_data to_datetime (listdir (Args.data_path args)) (__init__ string) with
  | RaisedReading e stdout _ => (stdout, inl e)
  | RaisedConverting e => ("", inl e)
  | Returned generator =>
      andthen
        (if Args.chain args
         then print_section "Chain of Thought Prompt:"
                (generate_chain_of_thought_prompt generator (Args.encounter args))
         else skip)
     (andthen
        (if Args.tree args
         then print_section (nl ++ "Tree of Thoughts Prompt:")
                (generate_tree_of_thoughts_prompt generator (Args.encounter args))
         else skip)
     (andthen
        (if Args.few_shot args
         then print_section (nl ++ "Few-Shot Learning Prompt:")
                (generate_few_shot_prompt generator (Args.encounter args))
         else skip)
        (if Args.simplification args
         then print_section (nl ++ "Medical Note Simplification Prompt:")
                (generate_medical_note_prompt generator (Args.encounter args)
                   (Args.language args))
         else skip)))
  end.

(** ** More vocabulary *)

(** The date cells of a row with a START and an optional STOP. *)
Definition window_cells (start : string) (stop : option string) : list string :=
  match stop with
  | None => [start]
  | Some text => [start; text]
  end.

(** The date cells of a table, empty when the file is absent. *)
Definition table_cells {R : Type} (cells : R -> list string) (file : option (list R))
  : list string :=
  match file with
  | None => []
  | Some rows => flat_map cells rows
  end.

(** Every date cell of the directory that is not missing. *)
Definition date_cells (dir : DataDir) : list string :=
  (table_cells (fun r => window_cells (Encounter.START r) (Encounter.STOP r))
     (encounters_csv dir) ++
   table_cells (fun r => window_cells (Condition.START r) (Condition.STOP r))
     (conditions_csv dir) ++
   table_cells (fun r => window_cells (Medication.START r) (Medication.STOP r))
     (medications_csv dir) ++
   table_cells (fun r => window_cells (CarePlan.START r) (CarePlan.STOP r))
     (careplans_csv dir) ++
   table_cells (fun r => window_cells (Patient.BIRTHDATE r) (Patient.DEATHDATE r))
     (patients_csv dir) ++
   table_cells (fun r => [Observation.DATE r]) (observations_csv dir))%list.

Definition present {A : Type} (file : option A) : bool := negb (isna file).

(** The name of the first of the six files, in the order they are read, that
    the directory lacks. *)
Definition first_absent (dir : DataDir) : option string :=
  if negb (present (encounters_csv dir)) then Some "encounters.csv"
  else if negb (present (conditions_csv dir)) then Some "conditions.csv"
  else if negb (present (medications_csv dir)) then Some "medications.csv"
  else if negb (present (patients_csv dir)) then Some "patients.csv"
  else if negb (present (careplans_csv dir)) then Some "careplans.csv"
  else if negb (present (observations_csv dir)) then Some "observations.csv"
  else None.

(** A date cell that [pd.to_datetime] reads, and one that it rejects. *)
Definition reads (to_datetime : string -> option Timestamp) (cell : string) : Prop :=
  to_datetime cell <> None.

Definition unreadable (to_datetime : string -> option Timestamp) (cell : string) : Prop :=
  to_datetime cell = None.

(** What the six row converters have in common: a row converts exactly when
    all its date cells read, and otherwise the exception is ValueError. *)
Definition row_converter (to_datetime : string -> option Timestamp) {A B : Type}
    (f : A -> result B) (cells : A -> list string) : Prop :=
  forall a,
    (Forall (reads to_datetime) (cells a) -> exists b, f a = inr b) /\
    (Exists (unreadable to_datetime) (cells a) -> f a = inl ValueError).

(** The four generators on one encounter id: all raising IndexError, or all
    returning a prompt. *)
Definition all_raise_IndexError {D : Type} `{DateLike D} (self : SyntheaPromptGenerator D)
    (encounter_id language : string) : Prop :=
  generate_chain_of_thought_prompt self encounter_id = inl IndexError /\
  generate_tree_of_thoughts_prompt self encounter_id = inl IndexError /\
  generate_few_shot_prompt self encounter_id = inl IndexError /\
  generate_medical_note_prompt self encounter_id language = inl IndexError.

Definition all_return {D : Type} `{DateLike D} (self : SyntheaPromptGenerator D)
    (encounter_id language : string) (c t f s : string) : Prop :=
  generate_chain_of_thought_prompt self encounter_id = inr c /\
  generate_tree_of_thoughts_prompt self encounter_id = inr t /\
  generate_few_shot_prompt self encounter_id = inr f /\
  generate_medical_note_prompt self encounter_id language = inr s.

(** What the three [print]s of a section write when the generator returns. *)
Definition section_text (header prompt : string) : string :=
  header ++ nl ++ dashes ++ nl ++ prompt ++ nl.

(** A date cell of a file and the cell of the loaded table. *)
Definition converted (to_datetime : string -> option Timestamp)
    (cell : string) (t : Timestamp) : Prop :=
  to_datetime cell = Some t.

(** The same for an optional date: missing stays missing. *)
Definition converted_opt (to_datetime : string -> option Timestamp)
    (cell : option string) (t : option Timestamp) : Prop :=
  match cell, t with
  | None, None => True
  | Some text, Some t' => to_datetime text = Some t'
  | _, _ => False
  end.

(** A row of a file and a row of the loaded table: every other column is the
    same, and each date is the reading of the text in the file. *)
Definition loaded_encounter (to_datetime : string -> option Timestamp)
    (raw : Encounter.t string) (row : Encounter.t Timestamp) : Prop :=
  Encounter.Id row = Encounter.Id raw /\
  Encounter.PATIENT row = Encounter.PATIENT raw /\
  converted to_datetime (Encounter.START raw) (Encounter.START row) /\
  converted_opt to_datetime (Encounter.STOP raw) (Encounter.STOP row) /\
  Encounter.DESCRIPTION row = Encounter.DESCRIPTION raw /\
  Encounter.REASONDESCRIPTION row = Encounter.REASONDESCRIPTION raw.

Definition loaded_condition (to_datetime : string -> option Timestamp)
    (raw : Condition.t string) (row : Condition.t Timestamp) : Prop :=
  Condition.PATIENT row = Condition.PATIENT raw /\
  converted to_datetime (Condition.START raw) (Condition.START row) /\
  converted_opt to_datetime (Condition.STOP raw) (Condition.STOP row) /\
  Condition.DESCRIPTION row = Condition.DESCRIPTION raw.

Definition loaded_medication (to_datetime : string -> option Timestamp)
    (raw : Medication.t string) (row : Medication.t Timestamp) : Prop :=
  Medication.PATIENT row = Medication.PATIENT raw /\
  converted to_datetime (Medication.START raw) (Medication.START row) /\
  converted_opt to_datetime (Medication.STOP raw) (Medication.STOP row) /\
  Medication.DESCRIPTION row = Medication.DESCRIPTION raw.

Definition loaded_careplan (to_datetime : string -> option Timestamp)
    (raw : CarePlan.t string) (row : CarePlan.t Timestamp) : Prop :=
  CarePlan.PATIENT row = CarePlan.PATIENT raw /\
  CarePlan.ENCOUNTER row = CarePlan.ENCOUNTER raw /\
  converted to_datetime (CarePlan.START raw) (CarePlan.START row) /\
  converted_opt to_datetime (CarePlan.STOP raw) (CarePlan.STOP row) /\
  CarePlan.DESCRIPTION row = CarePlan.DESCRIPTION raw.

Definition loaded_patient (to_datetime : string -> option Timestamp)
    (raw : Patient.t string) (row : Patient.t Timestamp) : Prop :=
  Patient.Id row = Patient.Id raw /\
  converted to_datetime (Patient.BIRTHDATE raw) (Patient.BIRTHDATE row) /\
  converted_opt to_datetime (Patient.DEATHDATE raw) (Patient.DEATHDATE row) /\
  Patient.GENDER row = Patient.GENDER raw /\
  Patient.RACE row = Patient.RACE raw /\
  Patient.ETHNICITY row = Patient.ETHNICITY raw.

Definition loaded_observation (to_datetime : string -> option Timestamp)
    (raw : Observation.t string) (row : Observation.t Timestamp) : Prop :=
  converted to_datetime (Observation.DATE raw) (Observation.DATE row) /\
  Observation.PATIENT row = Observation.PATIENT raw /\
  Observation.ENCOUNTER row = Observation.ENCOUNTER raw /\
  Observation.DESCRIPTION row = Observation.DESCRIPTION raw /\
  Observation.VALUE row = Observation.VALUE raw /\
  Observation.UNITS row = Observation.UNITS raw.

(** A list as the note prints it: "None" when empty, else one "- " line per
    item. *)
Definition listing (items : list string) : string :=
  match items with
  | [] => "None"
  | _ => bullets items
  end.

(** The simplification prompt from the "REASON FOR VISIT" header to its end,
    character by character. *)
Definition prompt_from_reason (reason_text : string)
    (conditions medications ongoing_careplans new_careplans : list string)
    (language : string) : string :=
  "REASON FOR VISIT" ++ nl ++
  reason_text ++ nl ++ nl ++
  "ACTIVE CONDITIONS" ++ nl ++
  listing conditions ++ nl ++ nl ++
  "CURRENT MEDICATIONS" ++ nl ++
  listing medications ++ nl ++ nl ++
  "ONGOING CAREPLANS" ++ nl ++
  listing ongoing_careplans ++ nl ++ nl ++
  "NEW CAREPLANS" ++ nl ++
  listing new_careplans ++ nl ++ nl ++ nl ++
  "Please follow these guidelines for the simplified note:" ++ nl ++
  "- Write the note in " ++ language ++ nl ++
  "- Tailor the note to their age" ++ nl ++
  "- Use appropriate language for the audience" ++ nl ++
  "- Maintain all important medical information" ++ nl ++
  "- Explain medical terms when needed" ++ nl ++
  "- Include any important instructions or follow-up steps" ++ nl.

(** A second ward, with a dangling reference and visits of one patient. *)

Module Ward.

Definition ann : Patient.t Timestamp :=
  Patient.mk "ann" (midnight 1980 2 29) None "F" "white" "hispanic".
Definition the_patients : list (Patient.t Timestamp) := [ann].

Definition first_visit : Encounter.t Timestamp :=
  Encounter.mk "v1" "ann" (midnight 2010 3 1) None "Wellness visit" None.
Definition second_visit : Encounter.t Timestamp :=
  Encounter.mk "v2" "ann" (midnight 2015 7 9) None "Emergency" (Some "Fracture").
(** A visit whose patient has no row in the patients table. *)
Definition orphan_visit : Encounter.t Timestamp :=
  Encounter.mk "v3" "bob" (midnight 2016 1 1) None "Follow-up" None.
Definition the_encounters : list (Encounter.t Timestamp) :=
  [first_visit; second_visit; orphan_visit].

Definition cast : CarePlan.t Timestamp :=
  CarePlan.mk "ann" "v2" (midnight 2015 7 10) (Some (midnight 2015 9 1)) "Cast care".
Definition exercise : CarePlan.t Timestamp :=
  CarePlan.mk "ann" "v1" (midnight 2010 3 1) None "Exercise".
Definition the_careplans : list (CarePlan.t Timestamp) := [cast; exercise].

Definition the_observations : list (Observation.t Timestamp) :=
  [ Observation.mk (midnight 2010 3 1) "ann" "v1" "Body Weight" "61" (Some "kg");
    Observation.mk (midnight 2015 7 9) "ann" "v2" "Pain severity" "7" None;
    Observation.mk (midnight 2015 7 9) "ann" "v2" "Heart rate" "88" (Some "/min") ].

Definition generator : SyntheaPromptGenerator Timestamp :=
  mkGenerator (Some the_encounters) (Some []) (Some [])
              (Some the_patients) (Some the_careplans) (Some the_observations).

(** A directory in which one STOP is no date. *)
Definition dir_bad_date : DataDir :=
  mkDataDir
    (Some [Encounter.mk "e1" "p1" "2020-01-01" (Some "soon") "Checkup" None])
    (Some [])
    (Some [])
    (Some [Patient.mk "p1" "2000-12-31" None "M" "white" "nonhispanic"])
    (Some [])
    (Some [])
    Clinic.not_found_in_data.

(** Two file systems, each with the one directory ["data"]: complete in the
    first, without [patients.csv] in the second.  Any other path, a plain
    directory name, leads nowhere: every file is absent under it. *)
Definition nowhere (path : string) : DataDir :=
  mkDataDir None None None None None None
    (fun name => "[Errno 2] No such file or directory: '" ++ path ++ "/" ++ name ++ "'").

Definition disk (path : string) : DataDir :=
  if (path =? "data")%string then Clinic.dir_complete else nowhere path.

Definition broken_disk (path : string) : DataDir :=
  if (path =? "data")%string then Clinic.dir_without_patients else nowhere path.

Definition args (encounter : string) (chain : bool) : Args.t :=
  Args.mk "data" "p1" encounter chain false false false "English".

End Ward.

(** * Properties *)

(** ** The error monad *)

Lemma bind_inr {A B : Type} (m : result A) (k : A -> result B) (a : A) :
  m = inr a -> bind m k = k a.
Proof. intros ->. reflexivity. Qed.

Lemma bind_inl {A B : Type} (m : result A) (k : A -> result B) (e : exn) :
  m = inl e -> bind m k = inl e.
Proof. intros ->. reflexivity. Qed.

(** A computation that raises keeps raising whatever follows it. *)
Lemma bind_raises {A B : Type} (m : result A) (k : A -> result B) :
  (forall a, exists e, k a = inl e) -> exists e, bind m k = inl e.
Proof.
  intros Hk. destruct m as [e | a]; simpl.
  - exists e. reflexivity.
  - apply Hk.
Qed.

(** ** Selections *)

Lemma iloc0_filter_find {R : Type} (f : R -> bool) (rows : list R) :
  iloc0 (filter f rows) =
  match find f rows with
  | Some row => ret row
  | None => raise IndexError
  end.
Proof.
  induction rows as [| r rows IH]; simpl.
  - reflexivity.
  - destruct (f r); simpl; [reflexivity | exact IH].
Qed.

Lemma find_absent {R : Type} (f : R -> bool) (rows : list R) :
  (forall r, In r rows -> f r = false) -> find f rows = None.
Proof.
  induction rows as [| r rows IH]; simpl; intros Hno.
  - reflexivity.
  - rewrite (Hno r (or_introl eq_refl)). apply IH. intros r' Hin. apply Hno. now right.
Qed.

Lemma find_present {R : Type} (f : R -> bool) (rows : list R) (r : R) :
  In r rows -> f r = true -> exists r', find f rows = Some r'.
Proof.
  induction rows as [| r0 rows IH]; simpl; intros Hin Hf.
  - contradiction.
  - destruct (f r0) eqn:E.
    + now exists r0.
    + destruct Hin as [-> | Hin]; [congruence | now apply IH].
Qed.

Lemma length_filter_count {R : Type} (f : R -> bool) (rows : list R) :
  List.length (filter f rows) = count_rows f rows.
Proof.
  induction rows as [| r rows IH]; simpl.
  - reflexivity.
  - destruct (f r); simpl; now rewrite IH.
Qed.

(** ** The order on timestamps *)

Lemma lex_compare_le (a b : list Z) : lex_compare a b <> Gt <-> lex_le a b.
Proof.
  revert b. induction a as [| x a IH]; intros [| y b]; simpl.
  - split; [constructor | discriminate].
  - split; [constructor | discriminate].
  - split; [congruence | intros Hle; inversion Hle].
  - destruct (Z.compare_spec x y) as [-> | Hlt | Hgt].
    + rewrite IH. split.
      * now constructor.
      * intros Hle. inversion Hle; subst; [lia | assumption].
    + split; [intros _; now apply lex_le_lt | discriminate].
    + split; [congruence | intros Hle; inversion Hle; subst; lia].
Qed.

Lemma Timestamp_leb_le (a b : Timestamp) : Timestamp_leb a b = true <-> Timestamp_le a b.
Proof.
  unfold Timestamp_leb, Timestamp_le. rewrite <- lex_compare_le.
  destruct (lex_compare _ _); split; congruence.
Qed.

Lemma lex_le_refl (a : list Z) : lex_le a a.
Proof. induction a; constructor; assumption. Qed.

Lemma Timestamp_le_refl (t : Timestamp) : Timestamp_le t t.
Proof. apply lex_le_refl. Qed.

(** The mask of the three time-windowed selections, on one row. *)
Lemma active_mask (start : Timestamp) (stop : option Timestamp) (T : Timestamp) :
  date_leb start T && (isna stop || cell_ge stop T) = true <-> active_at start stop T.
Proof.
  unfold active_at. rewrite andb_true_iff, orb_true_iff. simpl.
  rewrite Timestamp_leb_le.
  destruct stop as [s |]; simpl.
  - rewrite Timestamp_leb_le. split.
    + intros [Hs [Hd | Hle]]; [discriminate | ].
      split; [assumption | right; now exists s].
    + intros [Hs [Hd | [s' [Heq Hle]]]]; [discriminate | ].
      injection Heq as <-. split; [assumption | now right].
  - split.
    + intros [Hs _]. split; [assumption | now left].
    + intros [Hs _]. split; [assumption | now left].
Qed.

(** ** Rendering helpers *)

Lemma process_observations_acc {D : Type} (rows : list (Observation.t D)) (acc : list string) :
  fold_left (fun obs row => (obs ++ [observation_text row])%list) rows acc =
  (acc ++ map (@observation_text D) rows)%list.
Proof.
  revert acc. induction rows as [| row rows IH]; intros acc; simpl.
  - now rewrite app_nil_r.
  - rewrite IH, <- app_assoc. reflexivity.
Qed.

Lemma observation_text_rendered {D : Type} (row : Observation.t D) :
  observation_text row =
  rendered_observation (Observation.DESCRIPTION row) (Observation.VALUE row)
                       (Observation.UNITS row).
Proof.
  unfold observation_text, rendered_observation.
  destruct (Observation.UNITS row); reflexivity.
Qed.

(** C6. [_process_observations] renders every observation row, in order, as
    "{description}: {value} {unit}", the unit being the empty string when
    absent, so that the space before it is kept: "Body Height", "170" without
    unit gives "Body Height: 170 " and with unit "cm" gives
    "Body Height: 170 cm". *)
Theorem process_observations_renders :
  (forall (D : Type) (rows : list (Observation.t D)),
      _process_observations rows =
      map (fun row => rendered_observation (Observation.DESCRIPTION row)
                                           (Observation.VALUE row)
                                           (Observation.UNITS row)) rows) /\
  (forall (D : Type) (d : D) (p e : string),
      _process_observations [Observation.mk d p e "Body Height" "170" None] =
      ["Body Height: 170 "]) /\
  (forall (D : Type) (d : D) (p e : string),
      _process_observations [Observation.mk d p e "Body Height" "170" (Some "cm")] =
      ["Body Height: 170 cm"]).
Proof.
  split; [| split]; try reflexivity.
  intros D rows. unfold _process_observations.
  rewrite process_observations_acc. simpl.
  apply map_ext. intros row. apply observation_text_rendered.
Qed.

Lemma concat_bullets (item : string) (rest : list string) :
  String.concat nl (map (fun i => "- " ++ i) (item :: rest)) = bullets (item :: rest).
Proof.
  revert item. induction rest as [| next rest IH]; intros item.
  - reflexivity.
  - change (("- " ++ item) ++ nl ++ String.concat nl (map (fun i => "- " ++ i) (next :: rest))
            = "- " ++ item ++ nl ++ bullets (next :: rest)).
    rewrite IH. simpl. reflexivity.
Qed.

(** C7. [_format_list] of a title and no items is the title followed by
    "None"; of a title and at least one item it is the title followed by the
    items, each prefixed with "- " and separated by newlines; so two items
    "a" and "b" give the title followed by "- a", a newline and "- b". *)
Theorem format_list_spec :
  (forall title, _format_list title [] = title ++ "None") /\
  (forall title item rest,
      _format_list title (item :: rest) = title ++ bullets (item :: rest)) /\
  (forall title, _format_list title ["a"; "b"] = title ++ "- a" ++ nl ++ "- b").
Proof.
  split; [| split].
  - reflexivity.
  - intros title item rest. unfold _format_list. now rewrite concat_bullets.
  - reflexivity.
Qed.

(** ** Unknown encounters *)

Lemma unknown_encounter {D : Type} (encs : list (Encounter.t D)) (encounter_id : string) :
  (forall r, In r encs -> Encounter.Id r <> encounter_id) ->
  iloc0 (filter (fun r => Encounter.Id r =? encounter_id)%string encs) = raise IndexError.
Proof.
  intros Hno. rewrite iloc0_filter_find, find_absent; [reflexivity |].
  intros r Hin. apply String.eqb_neq. now apply Hno.
Qed.

(** C1. When no row of the encounters table has the given encounter id, each
    of the four generators raises the lookup error (Python's IndexError from
    [.iloc[0]], the specification's NotFoundError) and so returns no text at
    all. *)
Theorem generators_unknown_encounter
    (D : Type) (HD : DateLike D) (self : SyntheaPromptGenerator D)
    (encs : list (Encounter.t D)) (encounter_id language : string) :
  encounters self = Some encs ->
  (forall r, In r encs -> Encounter.Id r <> encounter_id) ->
  generate_chain_of_thought_prompt self encounter_id = inl IndexError /\
  generate_tree_of_thoughts_prompt self encounter_id = inl IndexError /\
  generate_few_shot_prompt self encounter_id = inl IndexError /\
  generate_medical_note_prompt self encounter_id language = inl IndexError.
Proof.
  intros Hencs Hno.
  unfold generate_chain_of_thought_prompt, generate_tree_of_thoughts_prompt,
    generate_few_shot_prompt, generate_medical_note_prompt.
  rewrite Hencs. simpl. rewrite (unknown_encounter _ Hno).
  repeat split; reflexivity.
Qed.

Lemma generators_unknown_encounter_witness :
  generate_chain_of_thought_prompt Clinic.generator "e9" = inl IndexError /\
  generate_tree_of_thoughts_prompt Clinic.generator "e9" = inl IndexError /\
  generate_few_shot_prompt Clinic.generator "e9" = inl IndexError /\
  generate_medical_note_prompt Clinic.generator "e9" "English" = inl IndexError.
Proof.
  apply (@generators_unknown_encounter Timestamp _ Clinic.generator
           Clinic.the_encounters "e9" "English").
  - reflexivity.
  - simpl. intros r [<- | [<- | []]]; simpl; discriminate.
Defined.

(** ** Patient history *)

Section LoadedHistory.
Variable self : SyntheaPromptGenerator Timestamp.
Variables (pats : list (Patient.t Timestamp)) (conds : list (Condition.t Timestamp))
          (meds : list (Medication.t Timestamp)) (encs : list (Encounter.t Timestamp))
          (plans : list (CarePlan.t Timestamp)) (obs : list (Observation.t Timestamp)).
Hypothesis Hpats : patients self = Some pats.
Hypothesis Hconds : conditions self = Some conds.
Hypothesis Hmeds : medications self = Some meds.
Hypothesis Hencs : encounters self = Some encs.
Hypothesis Hplans : careplans self = Some plans.
Hypothesis Hobs : observations self = Some obs.

(** On a loaded object the history of a patient and an encounter that are
    both found is built from the first row of each selection. *)
Lemma get_patient_history_returns (patient_id encounter_id : string)
    (patient : Patient.t Timestamp) (encounter : Encounter.t Timestamp) :
  find (fun r => Patient.Id r =? patient_id)%string pats = Some patient ->
  find (fun r => Encounter.Id r =? encounter_id)%string encs = Some encounter ->
  get_patient_history self patient_id encounter_id =
  inr (History.mk
         (mkDemographics
            (year (Encounter.START encounter) - year (Patient.BIRTHDATE patient))
            (Patient.GENDER patient) (Patient.RACE patient) (Patient.ETHNICITY patient))
         (_process_observations
            (filter (fun r => (Observation.PATIENT r =? patient_id)%string &&
                              (Observation.ENCOUNTER r =? encounter_id)%string) obs))
         (map (@Condition.DESCRIPTION _)
            (filter (fun r => Condition.PATIENT r =? patient_id)%string conds))
         (map (@Medication.DESCRIPTION _)
            (filter (fun r => Medication.PATIENT r =? patient_id)%string meds))
         (map (@CarePlan.DESCRIPTION _)
            (filter (fun r => CarePlan.PATIENT r =? patient_id)%string plans))
         (map (@Encounter.DESCRIPTION _)
            (filter (fun r => Encounter.PATIENT r =? patient_id)%string encs))).
Proof.
  intros Hp He. unfold get_patient_history.
  rewrite Hpats, Hconds, Hmeds, Hencs, Hplans, Hobs. simpl.
  rewrite !iloc0_filter_find, Hp, He. reflexivity.
Qed.

End LoadedHistory.

(** C3. On a loaded object, for a patient id and an encounter id that both
    resolve, [get_patient_history] returns, and its conditions, medications
    and careplans lists are as long as the number of rows of the conditions,
    medications and careplans tables whose PATIENT is that id: every such row
    counts, whatever its START and STOP. *)
Theorem history_lists_count_all_rows
    (self : SyntheaPromptGenerator Timestamp)
    (pats : list (Patient.t Timestamp)) (conds : list (Condition.t Timestamp))
    (meds : list (Medication.t Timestamp)) (encs : list (Encounter.t Timestamp))
    (plans : list (CarePlan.t Timestamp)) (obs : list (Observation.t Timestamp))
    (patient_id encounter_id : string)
    (patient : Patient.t Timestamp) (encounter : Encounter.t Timestamp) :
  patients self = Some pats ->
  conditions self = Some conds ->
  medications self = Some meds ->
  encounters self = Some encs ->
  careplans self = Some plans ->
  observations self = Some obs ->
  find (fun r => Patient.Id r =? patient_id)%string pats = Some patient ->
  find (fun r => Encounter.Id r =? encounter_id)%string encs = Some encounter ->
  exists history,
    get_patient_history self patient_id encounter_id = inr history /\
    List.length (History.conditions history) =
      count_rows (fun r => Condition.PATIENT r =? patient_id)%string conds /\
    List.length (History.medications history) =
      count_rows (fun r => Medication.PATIENT r =? patient_id)%string meds /\
    List.length (History.careplans history) =
      count_rows (fun r => CarePlan.PATIENT r =? patient_id)%string plans.
Proof.
  intros Hpats Hconds Hmeds Hencs Hplans Hobs Hp He.
  eexists. split.
  - eapply get_patient_history_returns; eassumption.
  - simpl. rewrite !length_map, !length_filter_count. auto.
Qed.

(** C5. On a loaded object, for a patient and an encounter that both resolve,
    the age of the history is the year of the encounter's START minus the
    year of the patient's BIRTHDATE; months and days play no part. *)
Theorem history_age_is_year_difference
    (self : SyntheaPromptGenerator Timestamp)
    (pats : list (Patient.t Timestamp)) (conds : list (Condition.t Timestamp))
    (meds : list (Medication.t Timestamp)) (encs : list (Encounter.t Timestamp))
    (plans : list (CarePlan.t Timestamp)) (obs : list (Observation.t Timestamp))
    (patient_id encounter_id : string)
    (patient : Patient.t Timestamp) (encounter : Encounter.t Timestamp) :
  patients self = Some pats ->
  conditions self = Some conds ->
  medications self = Some meds ->
  encounters self = Some encs ->
  careplans self = Some plans ->
  observations self = Some obs ->
  find (fun r => Patient.Id r =? patient_id)%string pats = Some patient ->
  find (fun r => Encounter.Id r =? encounter_id)%string encs = Some encounter ->
  exists history,
    get_patient_history self patient_id encounter_id = inr history /\
    age (History.demographics history) =
      year (Encounter.START encounter) - year (Patient.BIRTHDATE patient).
Proof.
  intros Hpats Hconds Hmeds Hencs Hplans Hobs Hp He.
  eexists. split.
  - eapply get_patient_history_returns; eassumption.
  - reflexivity.
Qed.

(** C10. [get_patient_history] never compares the encounter's PATIENT with the
    patient id it is given: on a loaded object, as soon as some row of the
    patients table has the patient id and some row of the encounters table
    has the encounter id, the call returns a history, whose demographics are
    those of the patient and whose age is computed from the START of that
    encounter, whoever the encounter belongs to. *)
Theorem history_ignores_encounter_owner
    (self : SyntheaPromptGenerator Timestamp)
    (pats : list (Patient.t Timestamp)) (conds : list (Condition.t Timestamp))
    (meds : list (Medication.t Timestamp)) (encs : list (Encounter.t Timestamp))
    (plans : list (CarePlan.t Timestamp)) (obs : list (Observation.t Timestamp))
    (patient_id encounter_id : string)
    (p : Patient.t Timestamp) (e : Encounter.t Timestamp) :
  patients self = Some pats ->
  conditions self = Some conds ->
  medications self = Some meds ->
  encounters self = Some encs ->
  careplans self = Some plans ->
  observations self = Some obs ->
  In p pats -> Patient.Id p = patient_id ->
  In e encs -> Encounter.Id e = encounter_id ->
  exists patient encounter history,
    find (fun r => Patient.Id r =? patient_id)%string pats = Some patient /\
    find (fun r => Encounter.Id r =? encounter_id)%string encs = Some encounter /\
    get_patient_history self patient_id encounter_id = inr history /\
    age (History.demographics history) =
      year (Encounter.START encounter) - year (Patient.BIRTHDATE patient) /\
    gender (History.demographics history) = Patient.GENDER patient /\
    race (History.demographics history) = Patient.RACE patient /\
    ethnicity (History.demographics history) = Patient.ETHNICITY patient.
Proof.
  intros Hpats Hconds Hmeds Hencs Hplans Hobs Hp Hpid He Heid.
  destruct (find_present (fun r => Patient.Id r =? patient_id)%string pats p Hp)
    as [patient Hfp]; [now apply String.eqb_eq |].
  destruct (find_present (fun r => Encounter.Id r =? encounter_id)%string encs e He)
    as [encounter Hfe]; [now apply String.eqb_eq |].
  exists patient, encounter. eexists. split; [exact Hfp | split; [exact Hfe | split]].
  - eapply get_patient_history_returns; eassumption.
  - simpl. auto.
Qed.

(** ** The medical note *)

Lemma append_assoc (a b c : string) : (a ++ b) ++ c = a ++ b ++ c.
Proof. induction a as [| ch a IH]; simpl; [reflexivity | now rewrite IH]. Qed.

Section Note.
Variable self : SyntheaPromptGenerator Timestamp.
Variables (encs : list (Encounter.t Timestamp)) (pats : list (Patient.t Timestamp))
          (conds : list (Condition.t Timestamp)) (meds : list (Medication.t Timestamp))
          (plans : list (CarePlan.t Timestamp)).
Hypothesis Hencs : encounters self = Some encs.
Hypothesis Hpats : patients self = Some pats.
Hypothesis Hconds : conditions self = Some conds.
Hypothesis Hmeds : medications self = Some meds.
Hypothesis Hplans : careplans self = Some plans.

Lemma medical_note_prompt_returns (encounter_id language : string)
    (encounter : Encounter.t Timestamp) (patient : Patient.t Timestamp) :
  find (fun r => Encounter.Id r =? encounter_id)%string encs = Some encounter ->
  find (fun r => Patient.Id r =? Encounter.PATIENT encounter)%string pats = Some patient ->
  let T := Encounter.START encounter in
  let patient_id := Encounter.PATIENT encounter in
  generate_medical_note_prompt self encounter_id language =
  inr (simplification_prompt
         (medical_note
            (str_int (year T) ++ "-" ++ pad2 (month T) ++ "-" ++ pad2 (day T))
            (Encounter.DESCRIPTION encounter)
            (year T - year (Patient.BIRTHDATE patient))
            (Patient.GENDER patient)
            (Encounter.REASONDESCRIPTION encounter)
            (map (@Condition.DESCRIPTION _)
               (filter (fun r => (Condition.PATIENT r =? patient_id)%string &&
                                 Timestamp_leb (Condition.START r) T &&
                                 (isna (Condition.STOP r) || cell_ge (Condition.STOP r) T))
                       conds))
            (map (@Medication.DESCRIPTION _)
               (filter (fun r => (Medication.PATIENT r =? patient_id)%string &&
                                 Timestamp_leb (Medication.START r) T &&
                                 (isna (Medication.STOP r) || cell_ge (Medication.STOP r) T))
                       meds))
            (map (@CarePlan.DESCRIPTION _)
               (filter (fun r => (CarePlan.PATIENT r =? patient_id)%string &&
                                 Timestamp_leb (CarePlan.START r) T &&
                                 (isna (CarePlan.STOP r) || cell_ge (CarePlan.STOP r) T))
                       plans))
            (map (@CarePlan.DESCRIPTION _)
               (filter (fun r => (CarePlan.PATIENT r =? patient_id)%string &&
                                 (CarePlan.ENCOUNTER r =? encounter_id)%string) plans)))
         language).
Proof.
  intros He Hp T patient_id. unfold generate_medical_note_prompt.
  rewrite Hencs, Hpats, Hconds, Hmeds, Hplans. simpl.
  rewrite iloc0_filter_find, He. simpl.
  rewrite iloc0_filter_find, Hp. reflexivity.
Qed.

End Note.

Lemma active_row_mask (owner patient_id : string) (start : Timestamp)
    (stop : option Timestamp) (T : Timestamp) :
  (owner =? patient_id)%string && Timestamp_leb start T && (isna stop || cell_ge stop T) = true
  <-> owner = patient_id /\ active_at start stop T.
Proof.
  rewrite <- andb_assoc, andb_true_iff, String.eqb_eq.
  change (Timestamp_leb start T) with (date_leb start T).
  now rewrite active_mask.
Qed.

(** Membership in one of the three time-windowed selections. *)
Lemma In_active_rows {R : Type} (owner : R -> string) (start : R -> Timestamp)
    (stop : R -> option Timestamp) (rows : list R) (patient_id : string)
    (T : Timestamp) (r : R) :
  In r (filter (fun r => (owner r =? patient_id)%string &&
                         Timestamp_leb (start r) T &&
                         (isna (stop r) || cell_ge (stop r) T)) rows)
  <-> In r rows /\ owner r = patient_id /\ active_at (start r) (stop r) T.
Proof.
  rewrite filter_In, active_row_mask. reflexivity.
Qed.

Lemma format_list_listing (items : list string) : _format_list "" items = listing items.
Proof.
  destruct items as [| item rest]; [reflexivity |].
  unfold _format_list, listing. now rewrite concat_bullets.
Qed.

(** The prompt of the note, written out. *)
Lemma prompt_spelled_out (date visit_type : string) (age : Z) (gender : string)
    (reason : option string) (cs ms os ns : list string) (language : string) :
  simplification_prompt (medical_note date visit_type age gender reason cs ms os ns) language =
  prompt_until_reason date visit_type age gender ++
  prompt_from_reason (reason_for_visit reason) cs ms os ns language.
Proof.
  unfold simplification_prompt, medical_note, prompt_until_reason, prompt_from_reason,
    reason_for_visit.
  rewrite !format_list_listing.
  cbn [String.concat].
  repeat rewrite append_assoc.
  cbn [append].
  reflexivity.
Qed.

(** C2. In the medical-note generator, with T the START of the encounter and
    the patient id its PATIENT, the returned text lists under ACTIVE
    CONDITIONS, CURRENT MEDICATIONS and ONGOING CAREPLANS the descriptions,
    in table order, of exactly the rows of the conditions, medications and
    careplans tables of that patient whose START is at most T and whose STOP
    is absent or at least T.  Both ends are inclusive: START equal to T
    passes the first test and STOP equal to T passes the second. *)
Theorem medical_note_lists_are_active_rows
    (self : SyntheaPromptGenerator Timestamp)
    (encs : list (Encounter.t Timestamp)) (pats : list (Patient.t Timestamp))
    (conds : list (Condition.t Timestamp)) (meds : list (Medication.t Timestamp))
    (plans : list (CarePlan.t Timestamp))
    (encounter_id language : string)
    (encounter : Encounter.t Timestamp) (patient : Patient.t Timestamp) :
  encounters self = Some encs ->
  patients self = Some pats ->
  conditions self = Some conds ->
  medications self = Some meds ->
  careplans self = Some plans ->
  find (fun r => Encounter.Id r =? encounter_id)%string encs = Some encounter ->
  find (fun r => Patient.Id r =? Encounter.PATIENT encounter)%string pats = Some patient ->
  let T := Encounter.START encounter in
  let patient_id := Encounter.PATIENT encounter in
  exists (active_conditions : list (Condition.t Timestamp))
         (current_medications : list (Medication.t Timestamp))
         (ongoing_careplans : list (CarePlan.t Timestamp)) (new_careplans : list string),
    generate_medical_note_prompt self encounter_id language =
    inr (prompt_until_reason
           (str_int (year T) ++ "-" ++ pad2 (month T) ++ "-" ++ pad2 (day T))
           (Encounter.DESCRIPTION encounter)
           (year T - year (Patient.BIRTHDATE patient))
           (Patient.GENDER patient) ++
         prompt_from_reason
           (reason_for_visit (Encounter.REASONDESCRIPTION encounter))
           (map (@Condition.DESCRIPTION _) active_conditions)
           (map (@Medication.DESCRIPTION _) current_medications)
           (map (@CarePlan.DESCRIPTION _) ongoing_careplans)
           new_careplans language) /\
    (forall r, In r active_conditions <->
               In r conds /\ Condition.PATIENT r = patient_id /\
               active_at (Condition.START r) (Condition.STOP r) T) /\
    (forall r, In r current_medications <->
               In r meds /\ Medication.PATIENT r = patient_id /\
               active_at (Medication.START r) (Medication.STOP r) T) /\
    (forall r, In r ongoing_careplans <->
               In r plans /\ CarePlan.PATIENT r = patient_id /\
               active_at (CarePlan.START r) (CarePlan.STOP r) T) /\
    (exists keep, active_conditions = filter keep conds) /\
    (exists keep, current_medications = filter keep meds) /\
    (exists keep, ongoing_careplans = filter keep plans) /\
    (forall stop, stop = None \/ (exists s, stop = Some s /\ Timestamp_le T s) ->
                  active_at T stop T) /\
    (forall start, Timestamp_le start T -> active_at start (Some T) T).
Proof.
  intros Hencs Hpats Hconds Hmeds Hplans He Hp T patient_id.
  pose proof (medical_note_prompt_returns self Hencs Hpats Hconds Hmeds Hplans
                encounter_id language He Hp) as Hret.
  cbv zeta in Hret. rewrite prompt_spelled_out in Hret.
  do 4 eexists.
  split; [exact Hret |].
  split; [intros r; apply In_active_rows |].
  split; [intros r; apply In_active_rows |].
  split; [intros r; apply In_active_rows |].
  split; [eexists; reflexivity |].
  split; [eexists; reflexivity |].
  split; [eexists; reflexivity |].
  split.
  - intros stop Hstop. split; [apply Timestamp_le_refl | exact Hstop].
  - intros start Hstart. split; [exact Hstart |].
    right. exists T. split; [reflexivity | apply Timestamp_le_refl].
Qed.

(** Whatever the reason is, it stands alone between the "REASON FOR VISIT"
    header and the blank line before "ACTIVE CONDITIONS". *)
Lemma prompt_reason_section (date visit_type : string) (age : Z) (gender : string)
    (cs ms os ns : list string) (language : string) :
  exists after, forall reason,
    simplification_prompt (medical_note date visit_type age gender reason cs ms os ns) language =
    prompt_until_reason date visit_type age gender ++
    "REASON FOR VISIT" ++ nl ++ reason_for_visit reason ++ nl ++ nl ++
    "ACTIVE CONDITIONS" ++ nl ++ after.
Proof.
  eexists. intros reason.
  unfold simplification_prompt, medical_note, prompt_until_reason, reason_for_visit.
  cbn [String.concat].
  repeat rewrite append_assoc.
  cbn [append].
  reflexivity.
Qed.

(** C8. In the prompt of the medical-note generator the "REASON FOR VISIT"
    header is followed by the line "Not provided" when the encounter's
    REASONDESCRIPTION is absent, and by the value of the field when it is
    present; the blank line and the "ACTIVE CONDITIONS" header come next. *)
Theorem medical_note_reason_for_visit
    (self : SyntheaPromptGenerator Timestamp)
    (encs : list (Encounter.t Timestamp)) (pats : list (Patient.t Timestamp))
    (conds : list (Condition.t Timestamp)) (meds : list (Medication.t Timestamp))
    (plans : list (CarePlan.t Timestamp))
    (encounter_id language : string)
    (encounter : Encounter.t Timestamp) (patient : Patient.t Timestamp) :
  encounters self = Some encs ->
  patients self = Some pats ->
  conditions self = Some conds ->
  medications self = Some meds ->
  careplans self = Some plans ->
  find (fun r => Encounter.Id r =? encounter_id)%string encs = Some encounter ->
  find (fun r => Patient.Id r =? Encounter.PATIENT encounter)%string pats = Some patient ->
  let T := Encounter.START encounter in
  let before :=
    prompt_until_reason
      (str_int (year T) ++ "-" ++ pad2 (month T) ++ "-" ++ pad2 (day T))
      (Encounter.DESCRIPTION encounter)
      (year T - year (Patient.BIRTHDATE patient))
      (Patient.GENDER patient) in
  exists after,
    (Encounter.REASONDESCRIPTION encounter = None ->
     generate_medical_note_prompt self encounter_id language =
     inr (before ++ "REASON FOR VISIT" ++ nl ++ "Not provided" ++ nl ++ nl ++
          "ACTIVE CONDITIONS" ++ nl ++ after)) /\
    (forall text,
     Encounter.REASONDESCRIPTION encounter = Some text ->
     generate_medical_note_prompt self encounter_id language =
     inr (before ++ "REASON FOR VISIT" ++ nl ++ text ++ nl ++ nl ++
          "ACTIVE CONDITIONS" ++ nl ++ after)).
Proof.
  intros Hencs Hpats Hconds Hmeds Hplans He Hp T before.
  pose proof (medical_note_prompt_returns self Hencs Hpats Hconds Hmeds Hplans
                encounter_id language He Hp) as Hret.
  cbv zeta in Hret. rewrite Hret.
  match goal with
  | |- context [medical_note ?d ?v ?a ?g _ ?cs ?ms ?os ?ns] =>
      destruct (prompt_reason_section d v a g cs ms os ns language) as [after Hafter]
  end.
  exists after. split.
  - intros Hnone. rewrite Hafter, Hnone. reflexivity.
  - intros text Hsome. rewrite Hafter, Hsome. reflexivity.
Qed.

(** ** The few-shot prompt *)

Lemma few_shot_prompt_inversion {D : Type} {HD : DateLike D}
    (self : SyntheaPromptGenerator D) (encounter_id prompt : string) :
  generate_few_shot_prompt self encounter_id = inr prompt ->
  exists encs encounter target_history,
    encounters self = Some encs /\
    find (fun r => Encounter.Id r =? encounter_id)%string encs = Some encounter /\
    get_patient_history self (Encounter.PATIENT encounter) encounter_id = inr target_history /\
    prompt = few_shot_exemplar ++ few_shot_target target_history.
Proof.
  unfold generate_few_shot_prompt. intros Hgen.
  destruct (encounters self) as [encs |]; simpl in Hgen; [| discriminate].
  rewrite iloc0_filter_find in Hgen.
  destruct (find _ encs) as [encounter |] eqn:Hfind; simpl in Hgen; [| discriminate].
  destruct (get_patient_history self (Encounter.PATIENT encounter) encounter_id)
    as [e | target_history] eqn:Hhist; simpl in Hgen; [discriminate |].
  exists encs, encounter, target_history.
  repeat split; try assumption. now injection Hgen as <-.
Qed.

(** C9. Whenever the few-shot generator returns for two encounter ids, both
    prompts begin with the same constant exemplar block; what follows it is
    the target block rendered from the history of the encounter asked for,
    and it does differ between encounters. *)
Theorem few_shot_exemplar_is_constant :
  (forall (D : Type) (HD : DateLike D) (self : SyntheaPromptGenerator D)
          (id1 id2 prompt1 prompt2 : string),
      generate_few_shot_prompt self id1 = inr prompt1 ->
      generate_few_shot_prompt self id2 = inr prompt2 ->
      exists encs e1 e2 h1 h2,
        encounters self = Some encs /\
        find (fun r => Encounter.Id r =? id1)%string encs = Some e1 /\
        find (fun r => Encounter.Id r =? id2)%string encs = Some e2 /\
        get_patient_history self (Encounter.PATIENT e1) id1 = inr h1 /\
        get_patient_history self (Encounter.PATIENT e2) id2 = inr h2 /\
        prompt1 = few_shot_exemplar ++ few_shot_target h1 /\
        prompt2 = few_shot_exemplar ++ few_shot_target h2) /\
  (exists target1 target2,
      generate_few_shot_prompt Clinic.generator "e1" = inr (few_shot_exemplar ++ target1) /\
      generate_few_shot_prompt Clinic.generator "e2" = inr (few_shot_exemplar ++ target2) /\
      target1 <> target2).
Proof.
  split.
  - intros D HD self id1 id2 prompt1 prompt2 H1 H2.
    apply few_shot_prompt_inversion in H1. apply few_shot_prompt_inversion in H2.
    destruct H1 as (encs & e1 & h1 & Hencs & Hf1 & Hh1 & ->).
    destruct H2 as (encs' & e2 & h2 & Hencs' & Hf2 & Hh2 & ->).
    rewrite Hencs in Hencs'. injection Hencs' as <-.
    exists encs, e1, e2, h1, h2. repeat split; assumption.
  - eexists. eexists. split; [reflexivity | split; [reflexivity |]].
    vm_compute. discriminate.
Qed.

(** ** Loading *)

(** A complete directory whose dates all read loads, and the prompts can then
    be generated. *)
Example load_complete_directory :
  exists self,
    load_data Clinic.to_datetime Clinic.dir_complete (__init__ string) = Returned self /\
    exists prompt, generate_chain_of_thought_prompt self "e1" = inr prompt.
Proof. eexists. split; [reflexivity | eexists; reflexivity]. Qed.

(** A read that fails reports the absent file and leaves [observations], the
    last table read, as it was. *)
Lemma read_tables_missing (dir : DataDir) (self : SyntheaPromptGenerator string) :
  encounters_csv dir = None \/ conditions_csv dir = None \/ medications_csv dir = None \/
  patients_csv dir = None \/ careplans_csv dir = None \/ observations_csv dir = None ->
  exists path self',
    read_tables dir self = (self', inl (FileNotFoundError path)) /\
    observations self' = observations self.
Proof.
  intros Habsent.
  destruct dir as [[e |] [c |] [m |] [p |] [cp |] [o |]]; simpl in Habsent;
    try (do 2 eexists; split; reflexivity).
  intuition discriminate.
Qed.

(** Without the observations table no history can be computed. *)
Lemma history_needs_observations {D : Type} {HD : DateLike D}
    (self : SyntheaPromptGenerator D) (patient_id encounter_id : string) :
  observations self = None ->
  exists e, get_patient_history self patient_id encounter_id = inl e.
Proof.
  intros Hobs. unfold get_patient_history. rewrite Hobs. cbv zeta.
  repeat first [ eexists; reflexivity | apply bind_raises; intros ].
Qed.

(** Unconverted dates have no [.strftime], so the note cannot be rendered. *)
Lemma note_needs_converted_dates
    (self : SyntheaPromptGenerator string) (encounter_id language : string) :
  exists e, generate_medical_note_prompt self encounter_id language = inl e.
Proof.
  unfold generate_medical_note_prompt. cbv zeta.
  repeat first [ eexists; reflexivity | apply bind_raises; intros ].
Qed.

(** C4. When one of the six files is absent from the directory, [load_data]
    on a new object ends with the FileNotFoundError of [read_csv] (the
    specification's MissingSourceError), re-raised to the caller after the
    message is printed; and on the object it leaves behind
    [get_patient_history] and the four generators raise for every argument,
    so what was read before the failure cannot be used. *)
Theorem load_data_missing_source
    (to_datetime : string -> option Timestamp) (dir : DataDir) :
  encounters_csv dir = None \/ conditions_csv dir = None \/ medications_csv dir = None \/
  patients_csv dir = None \/ careplans_csv dir = None \/ observations_csv dir = None ->
  exists path stdout self',
    load_data to_datetime dir (__init__ string) =
      RaisedReading (FileNotFoundError path) stdout self' /\
    (forall patient_id encounter_id,
        exists e, get_patient_history self' patient_id encounter_id = inl e) /\
    (forall encounter_id,
        exists e, generate_chain_of_thought_prompt self' encounter_id = inl e) /\
    (forall encounter_id,
        exists e, generate_tree_of_thoughts_prompt self' encounter_id = inl e) /\
    (forall encounter_id,
        exists e, generate_few_shot_prompt self' encounter_id = inl e) /\
    (forall encounter_id language,
        exists e, generate_medical_note_prompt self' encounter_id language = inl e).
Proof.
  intros Habsent.
  destruct (read_tables_missing dir (__init__ string) Habsent) as (path & self' & Hread & Hobs).
  simpl in Hobs.
  exists path. eexists. exists self'. split; [| repeat split].
  - unfold load_data. rewrite Hread. reflexivity.
  - intros. now apply history_needs_observations.
  - intros. unfold generate_chain_of_thought_prompt.
    do 2 (apply bind_raises; intros).
    destruct (history_needs_observations self' (Encounter.PATIENT a0) encounter_id Hobs)
      as [e ->]. now exists e.
  - intros. unfold generate_tree_of_thoughts_prompt.
    do 2 (apply bind_raises; intros).
    destruct (history_needs_observations self' (Encounter.PATIENT a0) encounter_id Hobs)
      as [e ->]. now exists e.
  - intros. unfold generate_few_shot_prompt.
    do 2 (apply bind_raises; intros).
    destruct (history_needs_observations self' (Encounter.PATIENT a0) encounter_id Hobs)
      as [e ->]. now exists e.
  - intros. apply note_needs_converted_dates.
Qed.

(** ** The properties at the clinic *)

Example clinic_history :
  get_patient_history Clinic.generator "p1" "e1" =
  inr (History.mk (mkDemographics 20 "M" "white" "nonhispanic")
         ["Body Height: 170 "; "Body Height: 170 cm"]
         ["Hypertension"; "Starts that day"; "Stops that day"; "Starts later"; "Stopped before"]
         ["Lisinopril"; "Amoxicillin"]
         ["Diet"; "Physiotherapy"]
         ["Checkup"]).
Proof. reflexivity. Qed.

Example clinic_medical_note :
  generate_medical_note_prompt Clinic.generator "e1" "English" =
  inr (simplification_prompt
         (medical_note "2020-01-01" "Checkup" 20 "M" None
            ["Hypertension"; "Starts that day"; "Stops that day"]
            ["Lisinopril"] ["Diet"] ["Diet"])
         "English").
Proof. reflexivity. Qed.

Example clinic_without_patients :
  load_data Clinic.to_datetime Clinic.dir_without_patients (__init__ string) =
  RaisedReading
    (FileNotFoundError "[Errno 2] No such file or directory: 'data/patients.csv'")
    ("Error loading Synthea data: [Errno 2] No such file or directory: 'data/patients.csv'" ++ nl)
    (mkGenerator
       (encounters_csv Clinic.dir_without_patients)
       (conditions_csv Clinic.dir_without_patients)
       (medications_csv Clinic.dir_without_patients)
       None None None).
Proof. reflexivity. Qed.

Lemma medical_note_lists_are_active_rows_witness :
  exists active_conditions : list (Condition.t Timestamp),
    (exists current_medications ongoing_careplans new_careplans,
        generate_medical_note_prompt Clinic.generator "e1" "English" =
        inr (prompt_until_reason "2020-01-01" "Checkup" 20 "M" ++
             prompt_from_reason "Not provided"
               (map (@Condition.DESCRIPTION _) active_conditions)
               current_medications ongoing_careplans new_careplans "English")) /\
    In Clinic.starts_that_day active_conditions /\
    In Clinic.stops_that_day active_conditions /\
    ~ In Clinic.starts_later active_conditions /\
    ~ In Clinic.stopped_before active_conditions.
Proof.
  destruct (@medical_note_lists_are_active_rows Clinic.generator
              Clinic.the_encounters Clinic.the_patients Clinic.the_conditions
              Clinic.the_medications Clinic.the_careplans "e1" "English"
              Clinic.e1 Clinic.p1
              eq_refl eq_refl eq_refl eq_refl eq_refl eq_refl eq_refl)
    as (cs & ms & os & ns & Hgen & Hcs & _ & _ & _ & _ & _ & Hstart & Hstop).
  exists cs. split; [| split; [| split; [| split]]].
  - exists (map (@Medication.DESCRIPTION _) ms), (map (@CarePlan.DESCRIPTION _) os), ns.
    exact Hgen.
  - apply Hcs. split; [simpl; tauto |]. split; [reflexivity |].
    apply Hstart. now left.
  - apply Hcs. split; [simpl; tauto |]. split; [reflexivity |].
    apply Hstop. apply Timestamp_leb_le. reflexivity.
  - intros Hin. apply Hcs in Hin. destruct Hin as (_ & _ & Hle & _).
    apply Timestamp_leb_le in Hle. discriminate Hle.
  - intros Hin. apply Hcs in Hin. destruct Hin as (_ & _ & _ & [Hnone | (s & Hs & Hle)]).
    + discriminate Hnone.
    + injection Hs as <-. apply Timestamp_leb_le in Hle. discriminate Hle.
Defined.

Lemma history_lists_count_all_rows_witness :
  exists history,
    get_patient_history Clinic.generator "p1" "e1" = inr history /\
    List.length (History.conditions history) = 5%nat /\
    List.length (History.medications history) = 2%nat /\
    List.length (History.careplans history) = 2%nat.
Proof.
  apply (@history_lists_count_all_rows Clinic.generator
           Clinic.the_patients Clinic.the_conditions Clinic.the_medications
           Clinic.the_encounters Clinic.the_careplans Clinic.the_observations
           "p1" "e1" Clinic.p1 Clinic.e1); reflexivity.
Defined.

Lemma load_data_missing_source_witness :
  patients_csv Clinic.dir_without_patients = None /\
  exists stdout self',
    load_data Clinic.to_datetime Clinic.dir_without_patients (__init__ string) =
      RaisedReading
        (FileNotFoundError "[Errno 2] No such file or directory: 'data/patients.csv'")
        stdout self' /\
    (forall patient_id encounter_id,
        exists e, get_patient_history self' patient_id encounter_id = inl e) /\
    (forall encounter_id language,
        exists e, generate_medical_note_prompt self' encounter_id language = inl e).
Proof.
  split; [reflexivity |].
  destruct (@load_data_missing_source Clinic.to_datetime Clinic.dir_without_patients)
    as (path & stdout & self' & Hload & Hhist & _ & _ & _ & Hnote).
  - right. right. right. left. reflexivity.
  - exists stdout, self'. split; [| split; assumption].
    rewrite Hload. cbv in Hload. injection Hload as Hpath _ _. now rewrite <- Hpath.
Defined.

Lemma history_age_is_year_difference_witness :
  Patient.BIRTHDATE Clinic.p1 = midnight 2000 12 31 /\
  Encounter.START Clinic.e1 = midnight 2020 1 1 /\
  exists history,
    get_patient_history Clinic.generator "p1" "e1" = inr history /\
    age (History.demographics history) = 20.
Proof.
  split; [reflexivity | split; [reflexivity |]].
  apply (@history_age_is_year_difference Clinic.generator
           Clinic.the_patients Clinic.the_conditions Clinic.the_medications
           Clinic.the_encounters Clinic.the_careplans Clinic.the_observations
           "p1" "e1" Clinic.p1 Clinic.e1); reflexivity.
Defined.

Lemma medical_note_reason_for_visit_witness :
  Encounter.REASONDESCRIPTION Clinic.e1 = None /\
  exists after,
    generate_medical_note_prompt Clinic.generator "e1" "English" =
    inr (prompt_until_reason "2020-01-01" "Checkup" 20 "M" ++
         "REASON FOR VISIT" ++ nl ++ "Not provided" ++ nl ++ nl ++
         "ACTIVE CONDITIONS" ++ nl ++ after).
Proof.
  split; [reflexivity |].
  destruct (@medical_note_reason_for_visit Clinic.generator
              Clinic.the_encounters Clinic.the_patients Clinic.the_conditions
              Clinic.the_medications Clinic.the_careplans "e1" "English"
              Clinic.e1 Clinic.p1
              eq_refl eq_refl eq_refl eq_refl eq_refl eq_refl eq_refl)
    as (after & Hnone & _).
  exists after. apply Hnone. reflexivity.
Defined.

Lemma few_shot_exemplar_is_constant_witness :
  exists h1 h2,
    generate_few_shot_prompt Clinic.generator "e1" =
      inr (few_shot_exemplar ++ few_shot_target h1) /\
    generate_few_shot_prompt Clinic.generator "e2" =
      inr (few_shot_exemplar ++ few_shot_target h2).
Proof.
  edestruct (proj1 few_shot_exemplar_is_constant Timestamp _ Clinic.generator "e1" "e2")
    as (encs & e1 & e2 & h1 & h2 & _ & _ & _ & _ & _ & H1 & H2).
  - cbv. reflexivity.
  - cbv. reflexivity.
  - exists h1, h2. split.
    + rewrite <- H1. reflexivity.
    + rewrite <- H2. reflexivity.
Defined.

Lemma history_ignores_encounter_owner_witness :
  Encounter.PATIENT Clinic.e1 <> "p2" /\
  exists history,
    get_patient_history Clinic.generator "p2" "e1" = inr history /\
    age (History.demographics history) = 30 /\
    gender (History.demographics history) = "F".
Proof.
  split; [discriminate |].
  destruct (@history_ignores_encounter_owner Clinic.generator
              Clinic.the_patients Clinic.the_conditions Clinic.the_medications
              Clinic.the_encounters Clinic.the_careplans Clinic.the_observations
              "p2" "e1" Clinic.p2 Clinic.e1
              eq_refl eq_refl eq_refl eq_refl eq_refl eq_refl)
    as (patient & encounter & history & Hp & He & Hhist & Hage & Hgender & _).
  - simpl. tauto.
  - reflexivity.
  - simpl. tauto.
  - reflexivity.
  - exists history. split; [exact Hhist |].
    simpl in Hp, He. injection Hp as <-. injection He as <-.
    split; [exact Hage | exact Hgender].
Defined.

(** * Further properties of the code *)

(** ** Conversion of the date columns *)

Section Conversion.
Variable to_datetime : string -> option Timestamp.

Lemma reads_dec (cells : list string) :
  Forall (reads to_datetime) cells \/ Exists (unreadable to_datetime) cells.
Proof.
  induction cells as [| cell cells IH].
  - left. constructor.
  - destruct (to_datetime cell) eqn:E.
    + destruct IH as [IH | IH].
      * left. constructor; [unfold reads; congruence | assumption].
      * right. now constructor 2.
    + right. now constructor 1.
Qed.

Lemma window_converter (start : string) (stop : option string) :
  (Forall (reads to_datetime) (window_cells start stop) ->
   exists t s, convert to_datetime start = inr t /\ convert_opt to_datetime stop = inr s) /\
  (Exists (unreadable to_datetime) (window_cells start stop) ->
   convert to_datetime start = inl ValueError \/
   (exists t, convert to_datetime start = inr t) /\
   convert_opt to_datetime stop = inl ValueError).
Proof.
  unfold convert_opt, convert, reads, unreadable.
  destruct stop as [text |]; simpl; split; intros H.
  - inversion H as [| ? ? H1 H2]; subst. inversion H2 as [| ? ? H3 _]; subst.
    destruct (to_datetime start); [| congruence].
    destruct (to_datetime text); [| congruence].
    simpl. eauto.
  - destruct (to_datetime start) eqn:Es; [| now left].
    right. split; [eauto |].
    inversion H as [? ? H1 | ? ? H1]; subst; [congruence |].
    inversion H1 as [? ? H2 | ? ? H2]; subst; [| inversion H2].
    now rewrite H2.
  - inversion H as [| ? ? H1 _]; subst.
    destruct (to_datetime start); [| congruence]. simpl. eauto.
  - inversion H as [? ? H1 | ? ? H1]; subst; [| inversion H1].
    left. now rewrite H1.
Qed.

Ltac window_row start stop :=
  let Hok := fresh "Hok" in
  let Herr := fresh "Herr" in
  destruct (window_converter start stop) as [Hok Herr];
  split; intros Hcells;
  [ destruct (Hok Hcells) as (t & s & -> & ->); simpl; eauto
  | destruct (Herr Hcells) as [-> | [[t ->] ->]]; reflexivity ].

Lemma convert_encounter_converter :
  row_converter to_datetime (convert_encounter to_datetime)
    (fun r => window_cells (Encounter.START r) (Encounter.STOP r)).
Proof.
  intros r. unfold convert_encounter.
  window_row (Encounter.START r) (Encounter.STOP r).
Qed.

Lemma convert_condition_converter :
  row_converter to_datetime (convert_condition to_datetime)
    (fun r => window_cells (Condition.START r) (Condition.STOP r)).
Proof.
  intros r. unfold convert_condition.
  window_row (Condition.START r) (Condition.STOP r).
Qed.

Lemma convert_medication_converter :
  row_converter to_datetime (convert_medication to_datetime)
    (fun r => window_cells (Medication.START r) (Medication.STOP r)).
Proof.
  intros r. unfold convert_medication.
  window_row (Medication.START r) (Medication.STOP r).
Qed.

Lemma convert_careplan_converter :
  row_converter to_datetime (convert_careplan to_datetime)
    (fun r => window_cells (CarePlan.START r) (CarePlan.STOP r)).
Proof.
  intros r. unfold convert_careplan.
  window_row (CarePlan.START r) (CarePlan.STOP r).
Qed.

Lemma convert_patient_converter :
  row_converter to_datetime (convert_patient to_datetime)
    (fun r => window_cells (Patient.BIRTHDATE r) (Patient.DEATHDATE r)).
Proof.
  intros r. unfold convert_patient.
  window_row (Patient.BIRTHDATE r) (Patient.DEATHDATE r).
Qed.

Lemma convert_observation_converter :
  row_converter to_datetime (convert_observation to_datetime) (fun r => [Observation.DATE r]).
Proof.
  intros r. unfold convert_observation, convert, reads, unreadable. split; intros H.
  - inversion H as [| ? ? H1 _]; subst.
    destruct (to_datetime (Observation.DATE r)); [| congruence]. simpl. eauto.
  - inversion H as [? ? H1 | ? ? H1]; subst; [| inversion H1].
    now rewrite H1.
Qed.

(** A table converts row by row, in order, or raises ValueError. *)
Lemma traverse_converter {A B : Type} (f : A -> result B) (cells : A -> list string)
    (rows : list A) :
  row_converter to_datetime f cells ->
  (Forall (reads to_datetime) (flat_map cells rows) ->
   exists rows', traverse f rows = inr rows' /\
                 Forall2 (fun a b => f a = inr b) rows rows') /\
  (Exists (unreadable to_datetime) (flat_map cells rows) ->
   traverse f rows = inl ValueError).
Proof.
  intros Hf. induction rows as [| a rows [IHok IHerr]]; simpl.
  - split.
    + intros _. exists []. split; [reflexivity | constructor].
    + intros H. inversion H.
  - destruct (Hf a) as [Hok Herr]. split.
    + intros H. apply Forall_app in H. destruct H as [Ha Hrows].
      destruct (Hok Ha) as [b Hb]. destruct (IHok Hrows) as (rows' & Hrows' & Hall).
      exists (b :: rows'). rewrite Hb, Hrows'. split; [reflexivity | now constructor].
    + intros H. apply Exists_app in H. destruct H as [Ha | Hrows].
      * now rewrite (Herr Ha).
      * destruct (reads_dec (cells a)) as [Hall | Hbad].
        -- destruct (Hok Hall) as [b ->]. simpl. now rewrite (IHerr Hrows).
        -- now rewrite (Herr Hbad).
Qed.

(** The outcome of one table of the loop: converted, or ValueError. *)
Lemma traverse_outcome {A B : Type} (f : A -> result B) (cells : A -> list string)
    (rows : list A) :
  row_converter to_datetime f cells ->
  (exists rows', traverse f rows = inr rows' /\ Forall (reads to_datetime) (flat_map cells rows)) \/
  (traverse f rows = inl ValueError /\
   Exists (unreadable to_datetime) (flat_map cells rows)).
Proof.
  intros Hf. destruct (traverse_converter rows Hf) as [Hok Herr].
  destruct (reads_dec (flat_map cells rows)) as [Hall | Hbad].
  - left. destruct (Hok Hall) as (rows' & Hrows' & _). eauto.
  - right. split; [now apply Herr | assumption].
Qed.

End Conversion.

(** ** Outcomes of [load_data] *)

Lemma reads_not_unreadable (to_datetime : string -> option Timestamp) (cells : list string) :
  Forall (reads to_datetime) cells -> Exists (unreadable to_datetime) cells -> False.
Proof.
  intros Hall Hbad. apply Exists_exists in Hbad. destruct Hbad as (cell & Hin & Hcell).
  rewrite Forall_forall in Hall. exact (Hall cell Hin Hcell).
Qed.

Lemma load_data_all_present (to_datetime : string -> option Timestamp)
    (self : SyntheaPromptGenerator string)
    (e : list (Encounter.t string)) (c : list (Condition.t string))
    (m : list (Medication.t string)) (p : list (Patient.t string))
    (cp : list (CarePlan.t string)) (o : list (Observation.t string))
    (error : string -> string) :
  load_data to_datetime
    (mkDataDir (Some e) (Some c) (Some m) (Some p) (Some cp) (Some o) error) self =
  match
    (encs <- traverse (convert_encounter to_datetime) e ;;
     conds <- traverse (convert_condition to_datetime) c ;;
     meds <- traverse (convert_medication to_datetime) m ;;
     plans <- traverse (convert_careplan to_datetime) cp ;;
     pats <- traverse (convert_patient to_datetime) p ;;
     obs <- traverse (convert_observation to_datetime) o ;;
     ret (mkGenerator (Some encs) (Some conds) (Some meds)
                      (Some pats) (Some plans) (Some obs)))
  with
  | inl err => RaisedConverting err
  | inr loaded => Returned loaded
  end.
Proof. reflexivity. Qed.

Lemma convert_converted (to_datetime : string -> option Timestamp)
    (cell : string) (t : Timestamp) :
  convert to_datetime cell = inr t -> converted to_datetime cell t.
Proof.
  unfold convert, converted. destruct (to_datetime cell); [| discriminate].
  intros H. now injection H as <-.
Qed.

Lemma convert_opt_converted (to_datetime : string -> option Timestamp)
    (cell : option string) (t : option Timestamp) :
  convert_opt to_datetime cell = inr t -> converted_opt to_datetime cell t.
Proof.
  unfold convert_opt, convert, converted_opt. destruct cell as [text |].
  - destruct (to_datetime text) as [t' |]; simpl; [| discriminate].
    intros H. now injection H as <-.
  - intros H. now injection H as <-.
Qed.

Ltac converted_row :=
  match goal with
  | |- bind (convert ?td ?a) _ = inr _ -> _ =>
      let Ha := fresh "Ha" in
      destruct (convert td a) as [? | ?] eqn:Ha; simpl; [discriminate |];
      apply convert_converted in Ha
  end;
  try match goal with
  | |- bind (convert_opt ?td ?b) _ = inr _ -> _ =>
      let Hb := fresh "Hb" in
      destruct (convert_opt td b) as [? | ?] eqn:Hb; simpl; [discriminate |];
      apply convert_opt_converted in Hb
  end;
  let H := fresh "H" in
  intros H; injection H as <-; simpl; repeat split; assumption.

Lemma convert_encounter_loaded (to_datetime : string -> option Timestamp)
    (raw : Encounter.t string) (row : Encounter.t Timestamp) :
  convert_encounter to_datetime raw = inr row -> loaded_encounter to_datetime raw row.
Proof. unfold convert_encounter, loaded_encounter. converted_row. Qed.

Lemma convert_condition_loaded (to_datetime : string -> option Timestamp)
    (raw : Condition.t string) (row : Condition.t Timestamp) :
  convert_condition to_datetime raw = inr row -> loaded_condition to_datetime raw row.
Proof. unfold convert_condition, loaded_condition. converted_row. Qed.

Lemma convert_medication_loaded (to_datetime : string -> option Timestamp)
    (raw : Medication.t string) (row : Medication.t Timestamp) :
  convert_medication to_datetime raw = inr row -> loaded_medication to_datetime raw row.
Proof. unfold convert_medication, loaded_medication. converted_row. Qed.

Lemma convert_careplan_loaded (to_datetime : string -> option Timestamp)
    (raw : CarePlan.t string) (row : CarePlan.t Timestamp) :
  convert_careplan to_datetime raw = inr row -> loaded_careplan to_datetime raw row.
Proof. unfold convert_careplan, loaded_careplan. converted_row. Qed.

Lemma convert_patient_loaded (to_datetime : string -> option Timestamp)
    (raw : Patient.t string) (row : Patient.t Timestamp) :
  convert_patient to_datetime raw = inr row -> loaded_patient to_datetime raw row.
Proof. unfold convert_patient, loaded_patient. converted_row. Qed.

Lemma convert_observation_loaded (to_datetime : string -> option Timestamp)
    (raw : Observation.t string) (row : Observation.t Timestamp) :
  convert_observation to_datetime raw = inr row -> loaded_observation to_datetime raw row.
Proof. unfold convert_observation, loaded_observation. converted_row. Qed.

Lemma Forall2_weaken {A B : Type} (P Q : A -> B -> Prop) (l : list A) (l' : list B) :
  (forall a b, P a b -> Q a b) -> Forall2 P l l' -> Forall2 Q l l'.
Proof. intros HPQ H. induction H; constructor; auto. Qed.

(** X1. When the six files are there and every date cell reads, [load_data]
    returns, whatever the object held before: all six tables are set, each
    has as many rows as its file, in file order, and each row has the columns
    of the file's row unchanged except the dates, which are the readings of
    the texts in the file (a missing date stays missing). *)
Theorem load_data_returns_converted_tables
    (to_datetime : string -> option Timestamp) (dir : DataDir)
    (self : SyntheaPromptGenerator string)
    (raw_encs : list (Encounter.t string)) (raw_conds : list (Condition.t string))
    (raw_meds : list (Medication.t string)) (raw_pats : list (Patient.t string))
    (raw_plans : list (CarePlan.t string)) (raw_obs : list (Observation.t string)) :
  encounters_csv dir = Some raw_encs ->
  conditions_csv dir = Some raw_conds ->
  medications_csv dir = Some raw_meds ->
  patients_csv dir = Some raw_pats ->
  careplans_csv dir = Some raw_plans ->
  observations_csv dir = Some raw_obs ->
  Forall (reads to_datetime) (date_cells dir) ->
  exists encs conds meds pats plans obs,
    load_data to_datetime dir self =
      Returned (mkGenerator (Some encs) (Some conds) (Some meds)
                            (Some pats) (Some plans) (Some obs)) /\
    Forall2 (loaded_encounter to_datetime) raw_encs encs /\
    Forall2 (loaded_condition to_datetime) raw_conds conds /\
    Forall2 (loaded_medication to_datetime) raw_meds meds /\
    Forall2 (loaded_patient to_datetime) raw_pats pats /\
    Forall2 (loaded_careplan to_datetime) raw_plans plans /\
    Forall2 (loaded_observation to_datetime) raw_obs obs.
Proof.
  destruct dir as [fe fc fm fp fcp fo error]. simpl.
  intros -> -> -> -> -> -> Hcells. unfold date_cells in Hcells. simpl in Hcells.
  repeat (apply Forall_app in Hcells; destruct Hcells as [? Hcells]).
  destruct (traverse_converter raw_encs (convert_encounter_converter to_datetime))
    as [He _].
  destruct (traverse_converter raw_conds (convert_condition_converter to_datetime))
    as [Hc _].
  destruct (traverse_converter raw_meds (convert_medication_converter to_datetime))
    as [Hm _].
  destruct (traverse_converter raw_plans (convert_careplan_converter to_datetime))
    as [Hcp _].
  destruct (traverse_converter raw_pats (convert_patient_converter to_datetime))
    as [Hp _].
  destruct (traverse_converter raw_obs (convert_observation_converter to_datetime))
    as [Ho _].
  destruct He as (encs & Hencs & ?); [assumption |].
  destruct Hc as (conds & Hconds & ?); [assumption |].
  destruct Hm as (meds & Hmeds & ?); [assumption |].
  destruct Hcp as (plans & Hplans & ?); [assumption |].
  destruct Hp as (pats & Hpats & ?); [assumption |].
  destruct Ho as (obs & Hobs & ?); [assumption |].
  exists encs, conds, meds, pats, plans, obs.
  rewrite load_data_all_present, Hencs, Hconds, Hmeds, Hplans, Hpats, Hobs.
  simpl. split; [reflexivity |].
  split; [eapply Forall2_weaken; [apply convert_encounter_loaded | eassumption] |].
  split; [eapply Forall2_weaken; [apply convert_condition_loaded | eassumption] |].
  split; [eapply Forall2_weaken; [apply convert_medication_loaded | eassumption] |].
  split; [eapply Forall2_weaken; [apply convert_patient_loaded | eassumption] |].
  split; [eapply Forall2_weaken; [apply convert_careplan_loaded | eassumption] |].
  eapply Forall2_weaken; [apply convert_observation_loaded | eassumption].
Qed.

Lemma load_data_returns_converted_tables_witness :
  Forall (reads Clinic.to_datetime) (date_cells Clinic.dir_complete) /\
  exists encs conds meds pats plans obs,
    load_data Clinic.to_datetime Clinic.dir_complete (__init__ string) =
      Returned (mkGenerator (Some encs) (Some conds) (Some meds)
                            (Some pats) (Some plans) (Some obs)) /\
    Forall2 (loaded_encounter Clinic.to_datetime)
      [Encounter.mk "e1" "p1" "2020-01-01" None "Checkup" None] encs /\
    Forall2 (loaded_patient Clinic.to_datetime)
      [Patient.mk "p1" "2000-12-31" None "M" "white" "nonhispanic"] pats.
Proof.
  assert (Hcells : Forall (reads Clinic.to_datetime) (date_cells Clinic.dir_complete)).
  { repeat constructor; discriminate. }
  split; [exact Hcells |].
  destruct (@load_data_returns_converted_tables Clinic.to_datetime Clinic.dir_complete
              (__init__ string) _ _ _ _ _ _
              eq_refl eq_refl eq_refl eq_refl eq_refl eq_refl Hcells)
    as (encs & conds & meds & pats & plans & obs & Hload & He & _ & _ & Hp & _).
  exists encs, conds, meds, pats, plans, obs. repeat split; assumption.
Defined.

(** X2. When the six files are there but some date cell is not a date,
    [load_data] ends with the ValueError of [pd.to_datetime]: the handler,
    which catches FileNotFoundError only, prints nothing, and no loaded
    object is returned. *)
Theorem load_data_unreadable_date
    (to_datetime : string -> option Timestamp) (dir : DataDir)
    (self : SyntheaPromptGenerator string) :
  first_absent dir = None ->
  Exists (unreadable to_datetime) (date_cells dir) ->
  load_data to_datetime dir self = RaisedConverting ValueError.
Proof.
  destruct dir as [[e |] [c |] [m |] [p |] [cp |] [o |]]; simpl; try discriminate.
  intros _ Hbad. unfold date_cells in Hbad. simpl in Hbad.
  rewrite load_data_all_present.
  destruct (traverse_outcome e (convert_encounter_converter to_datetime))
    as [(encs & -> & He) | [-> _]]; [simpl | reflexivity].
  destruct (traverse_outcome c (convert_condition_converter to_datetime))
    as [(conds & -> & Hc) | [-> _]]; [simpl | reflexivity].
  destruct (traverse_outcome m (convert_medication_converter to_datetime))
    as [(meds & -> & Hm) | [-> _]]; [simpl | reflexivity].
  destruct (traverse_outcome cp (convert_careplan_converter to_datetime))
    as [(plans & -> & Hcp) | [-> _]]; [simpl | reflexivity].
  destruct (traverse_outcome p (convert_patient_converter to_datetime))
    as [(pats & -> & Hp) | [-> _]]; [simpl | reflexivity].
  destruct (traverse_outcome o (convert_observation_converter to_datetime))
    as [(obs & -> & Ho) | [-> _]]; [simpl | reflexivity].
  exfalso. apply (@reads_not_unreadable to_datetime _) with (2 := Hbad).
  repeat (apply Forall_app; split); assumption.
Qed.

Lemma load_data_unreadable_date_witness :
  first_absent Ward.dir_bad_date = None /\
  Exists (unreadable Clinic.to_datetime) (date_cells Ward.dir_bad_date) /\
  load_data Clinic.to_datetime Ward.dir_bad_date (__init__ string) =
    RaisedConverting ValueError.
Proof.
  assert (Hbad : Exists (unreadable Clinic.to_datetime) (date_cells Ward.dir_bad_date)).
  { apply Exists_cons_tl. apply Exists_cons_hd. reflexivity. }
  split; [reflexivity | split; [exact Hbad |]].
  apply (@load_data_unreadable_date Clinic.to_datetime Ward.dir_bad_date
           (__init__ string) eq_refl Hbad).
Defined.

(** The read phase on a new object, file by file. *)
Lemma load_data_first_absent (to_datetime : string -> option Timestamp) (dir : DataDir)
    (name : string) :
  first_absent dir = Some name ->
  load_data to_datetime dir (__init__ string) =
  RaisedReading (FileNotFoundError (not_found dir name))
    ("Error loading Synthea data: " ++ not_found dir name ++ nl)
    (mkGenerator
       (encounters_csv dir)
       (if present (encounters_csv dir) then conditions_csv dir else None)
       (if present (encounters_csv dir) && present (conditions_csv dir)
        then medications_csv dir else None)
       (if present (encounters_csv dir) && present (conditions_csv dir) &&
           present (medications_csv dir)
        then patients_csv dir else None)
       (if present (encounters_csv dir) && present (conditions_csv dir) &&
           present (medications_csv dir) && present (patients_csv dir)
        then careplans_csv dir else None)
       None).
Proof.
  destruct dir as [[e |] [c |] [m |] [p |] [cp |] [o |] error]; simpl;
    intros Hname; try discriminate Hname; injection Hname as <-; reflexivity.
Qed.

(** X3. When a file is absent, [load_data] on a new object re-raises the
    FileNotFoundError of the first absent file in reading order, after
    printing "Error loading Synthea data: " followed by the text of that
    error.  The object keeps what was assigned before: each table whose file
    and all earlier files are there holds the rows of its file, unconverted;
    the others, and always [observations], are still [None]. *)
Theorem load_data_keeps_tables_read_before_failure
    (to_datetime : string -> option Timestamp) (dir : DataDir) (name : string) :
  first_absent dir = Some name ->
  exists self',
    load_data to_datetime dir (__init__ string) =
      RaisedReading (FileNotFoundError (not_found dir name))
        ("Error loading Synthea data: " ++ not_found dir name ++ nl) self' /\
    encounters self' = encounters_csv dir /\
    conditions self' =
      (if present (encounters_csv dir) then conditions_csv dir else None) /\
    medications self' =
      (if present (encounters_csv dir) && present (conditions_csv dir)
       then medications_csv dir else None) /\
    patients self' =
      (if present (encounters_csv dir) && present (conditions_csv dir) &&
          present (medications_csv dir)
       then patients_csv dir else None) /\
    careplans self' =
      (if present (encounters_csv dir) && present (conditions_csv dir) &&
          present (medications_csv dir) && present (patients_csv dir)
       then careplans_csv dir else None) /\
    observations self' = None.
Proof.
  intros Hname. eexists. split.
  - apply load_data_first_absent. exact Hname.
  - repeat split.
Qed.

Lemma load_data_keeps_tables_read_before_failure_witness :
  first_absent Clinic.dir_without_patients = Some "patients.csv" /\
  exists self',
    load_data Clinic.to_datetime Clinic.dir_without_patients (__init__ string) =
      RaisedReading
        (FileNotFoundError "[Errno 2] No such file or directory: 'data/patients.csv'")
        ("Error loading Synthea data: [Errno 2] No such file or directory: 'data/patients.csv'"
         ++ nl)
        self' /\
    encounters self' = encounters_csv Clinic.dir_without_patients /\
    conditions self' = conditions_csv Clinic.dir_without_patients /\
    medications self' = Some [] /\
    patients self' = None /\ careplans self' = None /\ observations self' = None.
Proof.
  split; [reflexivity |].
  destruct (@load_data_keeps_tables_read_before_failure Clinic.to_datetime
              Clinic.dir_without_patients "patients.csv" eq_refl)
    as (self' & Hload & He & Hc & Hm & Hp & Hcp & Ho).
  exists self'. repeat split; assumption.
Defined.

(** ** The command line *)

(** X4. When a file is absent from the directory that [--data_path] names, a
    run of the program writes the one line of the handler, "Error loading
    Synthea data: " followed by the text of the error for that path, and ends
    with the FileNotFoundError of the first absent file: whatever the flags,
    no section header and no prompt is written. *)
Theorem main_missing_file
    (to_datetime : string -> option Timestamp) (listdir : string -> DataDir)
    (args : Args.t) (name : string) :
  first_absent (listdir (Args.data_path args)) = Some name ->
  main to_datetime listdir args =
  ("Error loading Synthea data: " ++ not_found (listdir (Args.data_path args)) name ++ nl,
   inl (FileNotFoundError (not_found (listdir (Args.data_path args)) name))).
Proof.
  intros Hname. unfold main. now rewrite (load_data_first_absent to_datetime _ Hname).
Qed.

Lemma main_missing_file_witness :
  Args.data_path (Ward.args "e1" true) = "data" /\
  first_absent (Ward.broken_disk "data") = Some "patients.csv" /\
  main Clinic.to_datetime Ward.broken_disk (Ward.args "e1" true) =
  ("Error loading Synthea data: [Errno 2] No such file or directory: 'data/patients.csv'"
   ++ nl,
   inl (FileNotFoundError "[Errno 2] No such file or directory: 'data/patients.csv'")).
Proof.
  split; [reflexivity | split; [reflexivity |]].
  apply (@main_missing_file Clinic.to_datetime Ward.broken_disk
           (Ward.args "e1" true) "patients.csv" eq_refl).
Defined.

(** X5. After a successful load, an encounter id that is in no row of the
    encounters table ends the run at the first selected section, after its
    header and the line of dashes are written: those two lines are the whole
    output and the exception is IndexError.  With no section selected the id
    is never looked up, and the run ends normally with no output. *)
Theorem main_unknown_encounter
    (to_datetime : string -> option Timestamp) (listdir : string -> DataDir)
    (args : Args.t)
    (generator : SyntheaPromptGenerator Timestamp) (encs : list (Encounter.t Timestamp)) :
  load_data to_datetime (listdir (Args.data_path args)) (__init__ string) =
    Returned generator ->
  encounters generator = Some encs ->
  (forall r, In r encs -> Encounter.Id r <> Args.encounter args) ->
  main to_datetime listdir args =
  if Args.chain args then
    ("Chain of Thought Prompt:" ++ nl ++ dashes ++ nl, inl IndexError)
  else if Args.tree args then
    (nl ++ "Tree of Thoughts Prompt:" ++ nl ++ dashes ++ nl, inl IndexError)
  else if Args.few_shot args then
    (nl ++ "Few-Shot Learning Prompt:" ++ nl ++ dashes ++ nl, inl IndexError)
  else if Args.simplification args then
    (nl ++ "Medical Note Simplification Prompt:" ++ nl ++ dashes ++ nl, inl IndexError)
  else ("", ret tt).
Proof.
  intros Hload Hencs Hno. unfold main. rewrite Hload.
  assert (Hc : generate_chain_of_thought_prompt generator (Args.encounter args)
               = inl IndexError).
  { unfold generate_chain_of_thought_prompt. rewrite Hencs. simpl.
    now rewrite (unknown_encounter _ Hno). }
  assert (Ht : generate_tree_of_thoughts_prompt generator (Args.encounter args)
               = inl IndexError).
  { unfold generate_tree_of_thoughts_prompt. rewrite Hencs. simpl.
    now rewrite (unknown_encounter _ Hno). }
  assert (Hf : generate_few_shot_prompt generator (Args.encounter args)
               = inl IndexError).
  { unfold generate_few_shot_prompt. rewrite Hencs. simpl.
    now rewrite (unknown_encounter _ Hno). }
  assert (Hs : generate_medical_note_prompt generator (Args.encounter args)
                 (Args.language args) = inl IndexError).
  { unfold generate_medical_note_prompt. rewrite Hencs. simpl.
    now rewrite (unknown_encounter _ Hno). }
  rewrite Hc, Ht, Hf, Hs.
  destruct (Args.chain args), (Args.tree args), (Args.few_shot args),
    (Args.simplification args); reflexivity.
Qed.

Lemma main_unknown_encounter_witness :
  main Clinic.to_datetime Ward.disk (Ward.args "e9" true) =
    ("Chain of Thought Prompt:" ++ nl ++ dashes ++ nl, inl IndexError) /\
  main Clinic.to_datetime Ward.disk (Ward.args "e9" false) = ("", ret tt).
Proof.
  split.
  - eapply (@main_unknown_encounter Clinic.to_datetime Ward.disk (Ward.args "e9" true)).
    + reflexivity.
    + reflexivity.
    + simpl. intros r [<- | []]. discriminate.
  - eapply (@main_unknown_encounter Clinic.to_datetime Ward.disk (Ward.args "e9" false)).
    + reflexivity.
    + reflexivity.
    + simpl. intros r [<- | []]. discriminate.
Defined.

(** ** Lookups that fail *)

(** X6. On an object whose tables are set, [get_patient_history] raises
    IndexError as soon as the patient id or the encounter id is in no row of
    its table; nothing is returned in place of the missing row. *)
Theorem history_unknown_id
    (D : Type) (HD : DateLike D) (self : SyntheaPromptGenerator D)
    (pats : list (Patient.t D)) (conds : list (Condition.t D))
    (meds : list (Medication.t D)) (encs : list (Encounter.t D))
    (plans : list (CarePlan.t D)) (patient_id encounter_id : string) :
  patients self = Some pats ->
  conditions self = Some conds ->
  medications self = Some meds ->
  encounters self = Some encs ->
  careplans self = Some plans ->
  (forall r, In r pats -> Patient.Id r <> patient_id) \/
  (forall r, In r encs -> Encounter.Id r <> encounter_id) ->
  get_patient_history self patient_id encounter_id = inl IndexError.
Proof.
  intros Hpats Hconds Hmeds Hencs Hplans Hno. unfold get_patient_history.
  rewrite Hpats, Hconds, Hmeds, Hencs, Hplans. simpl.
  rewrite iloc0_filter_find.
  destruct (find (fun r => Patient.Id r =? patient_id)%string pats) as [patient |] eqn:Hp;
    [| reflexivity].
  simpl. destruct Hno as [Hno | Hno].
  - rewrite find_absent in Hp; [discriminate |].
    intros r Hin. apply String.eqb_neq. now apply Hno.
  - now rewrite (unknown_encounter _ Hno).
Qed.

Lemma history_unknown_id_witness :
  get_patient_history Ward.generator "bob" "v3" = inl IndexError /\
  get_patient_history Ward.generator "ann" "v9" = inl IndexError.
Proof.
  split.
  - apply (@history_unknown_id Timestamp _ Ward.generator Ward.the_patients [] []
             Ward.the_encounters Ward.the_careplans "bob" "v3");
      try reflexivity.
    left. simpl. intros r [<- | []]. discriminate.
  - apply (@history_unknown_id Timestamp _ Ward.generator Ward.the_patients [] []
             Ward.the_encounters Ward.the_careplans "ann" "v9");
      try reflexivity.
    right. simpl. intros r [<- | [<- | [<- | []]]]; discriminate.
Defined.

(** X7. An encounter whose PATIENT is in no row of the patients table makes
    each of the four generators raise IndexError, although the encounter
    itself is found. *)
Theorem generators_dangling_patient
    (D : Type) (HD : DateLike D) (self : SyntheaPromptGenerator D)
    (encs : list (Encounter.t D)) (pats : list (Patient.t D))
    (encounter_id language : string) (encounter : Encounter.t D) :
  encounters self = Some encs ->
  patients self = Some pats ->
  find (fun r => Encounter.Id r =? encounter_id)%string encs = Some encounter ->
  (forall r, In r pats -> Patient.Id r <> Encounter.PATIENT encounter) ->
  generate_chain_of_thought_prompt self encounter_id = inl IndexError /\
  generate_tree_of_thoughts_prompt self encounter_id = inl IndexError /\
  generate_few_shot_prompt self encounter_id = inl IndexError /\
  generate_medical_note_prompt self encounter_id language = inl IndexError.
Proof.
  intros Hencs Hpats He Hno.
  assert (Hp : iloc0 (filter (fun r => Patient.Id r =? Encounter.PATIENT encounter)%string
                        pats) = inl IndexError).
  { rewrite iloc0_filter_find, find_absent; [reflexivity |].
    intros r Hin. apply String.eqb_neq. now apply Hno. }
  unfold generate_chain_of_thought_prompt, generate_tree_of_thoughts_prompt,
    generate_few_shot_prompt, generate_medical_note_prompt, get_patient_history.
  rewrite Hencs, Hpats. simpl. rewrite iloc0_filter_find, He. simpl.
  rewrite Hp. repeat split; reflexivity.
Qed.

Lemma generators_dangling_patient_witness :
  Encounter.PATIENT Ward.orphan_visit = "bob" /\
  generate_chain_of_thought_prompt Ward.generator "v3" = inl IndexError /\
  generate_tree_of_thoughts_prompt Ward.generator "v3" = inl IndexError /\
  generate_few_shot_prompt Ward.generator "v3" = inl IndexError /\
  generate_medical_note_prompt Ward.generator "v3" "English" = inl IndexError.
Proof.
  split; [reflexivity |].
  apply (@generators_dangling_patient Timestamp _ Ward.generator Ward.the_encounters
           Ward.the_patients "v3" "English" Ward.orphan_visit);
    try reflexivity.
  simpl. intros r [<- | []]. discriminate.
Defined.

(** X8. Before [load_data] has set the tables there is nothing to subscript:
    with [patients] still [None], [get_patient_history] raises TypeError, and
    with [encounters] still [None] so does each of the four generators. *)
Theorem methods_before_load :
  (forall (D : Type) (HD : DateLike D) (self : SyntheaPromptGenerator D)
          (patient_id encounter_id : string),
      patients self = None ->
      get_patient_history self patient_id encounter_id = inl TypeError) /\
  (forall (D : Type) (HD : DateLike D) (self : SyntheaPromptGenerator D)
          (encounter_id language : string),
      encounters self = None ->
      generate_chain_of_thought_prompt self encounter_id = inl TypeError /\
      generate_tree_of_thoughts_prompt self encounter_id = inl TypeError /\
      generate_few_shot_prompt self encounter_id = inl TypeError /\
      generate_medical_note_prompt self encounter_id language = inl TypeError).
Proof.
  split.
  - intros D HD self patient_id encounter_id Hpats.
    unfold get_patient_history. now rewrite Hpats.
  - intros D HD self encounter_id language Hencs.
    unfold generate_chain_of_thought_prompt, generate_tree_of_thoughts_prompt,
      generate_few_shot_prompt, generate_medical_note_prompt.
    rewrite Hencs. repeat split; reflexivity.
Qed.

Lemma methods_before_load_witness :
  get_patient_history (__init__ Timestamp) "p1" "e1" = inl TypeError /\
  generate_medical_note_prompt (__init__ Timestamp) "e1" "English" = inl TypeError.
Proof.
  split.
  - apply (proj1 methods_before_load Timestamp _ (__init__ Timestamp) "p1" "e1" eq_refl).
  - apply (proj2 methods_before_load Timestamp _ (__init__ Timestamp) "e1" "English" eq_refl).
Defined.

(** ** Generators that return *)

(** X9. On a loaded object, an encounter that is found and whose patient is
    found makes all four generators return a prompt. *)
Theorem generators_return
    (self : SyntheaPromptGenerator Timestamp)
    (pats : list (Patient.t Timestamp)) (conds : list (Condition.t Timestamp))
    (meds : list (Medication.t Timestamp)) (encs : list (Encounter.t Timestamp))
    (plans : list (CarePlan.t Timestamp)) (obs : list (Observation.t Timestamp))
    (encounter_id language : string)
    (encounter : Encounter.t Timestamp) (patient : Patient.t Timestamp) :
  patients self = Some pats ->
  conditions self = Some conds ->
  medications self = Some meds ->
  encounters self = Some encs ->
  careplans self = Some plans ->
  observations self = Some obs ->
  find (fun r => Encounter.Id r =? encounter_id)%string encs = Some encounter ->
  find (fun r => Patient.Id r =? Encounter.PATIENT encounter)%string pats = Some patient ->
  (exists prompt, generate_chain_of_thought_prompt self encounter_id = inr prompt) /\
  (exists prompt, generate_tree_of_thoughts_prompt self encounter_id = inr prompt) /\
  (exists prompt, generate_few_shot_prompt self encounter_id = inr prompt) /\
  (exists prompt, generate_medical_note_prompt self encounter_id language = inr prompt).
Proof.
  intros Hpats Hconds Hmeds Hencs Hplans Hobs He Hp.
  pose proof (get_patient_history_returns self Hpats Hconds Hmeds Hencs Hplans Hobs
                (Encounter.PATIENT encounter) encounter_id Hp He) as Hhist.
  pose proof (medical_note_prompt_returns self Hencs Hpats Hconds Hmeds Hplans
                encounter_id language He Hp) as Hnote.
  unfold generate_chain_of_thought_prompt, generate_tree_of_thoughts_prompt,
    generate_few_shot_prompt.
  rewrite Hencs. simpl. rewrite iloc0_filter_find, He. simpl. rewrite Hhist. simpl.
  repeat split; eauto.
Qed.

Lemma generators_return_witness :
  (exists prompt, generate_chain_of_thought_prompt Ward.generator "v2" = inr prompt) /\
  (exists prompt, generate_tree_of_thoughts_prompt Ward.generator "v2" = inr prompt) /\
  (exists prompt, generate_few_shot_prompt Ward.generator "v2" = inr prompt) /\
  (exists prompt, generate_medical_note_prompt Ward.generator "v2" "Spanish" = inr prompt).
Proof.
  apply (@generators_return Ward.generator Ward.the_patients [] []
           Ward.the_encounters Ward.the_careplans Ward.the_observations
           "v2" "Spanish" Ward.second_visit Ward.ann); reflexivity.
Defined.

(** ** What the history and the note select *)

Lemma process_observations_map {D : Type} (rows : list (Observation.t D)) :
  _process_observations rows = map (@observation_text D) rows.
Proof. unfold _process_observations. now rewrite process_observations_acc. Qed.

(** X10. The observations of a history are scoped to the encounter: on a
    loaded object, for a patient and an encounter that are found, the list
    has one text per observation row whose PATIENT and ENCOUNTER are both the
    ids asked for, and rows of the same patient from other encounters are not
    in it. *)
Theorem history_observations_scoped
    (self : SyntheaPromptGenerator Timestamp)
    (pats : list (Patient.t Timestamp)) (conds : list (Condition.t Timestamp))
    (meds : list (Medication.t Timestamp)) (encs : list (Encounter.t Timestamp))
    (plans : list (CarePlan.t Timestamp)) (obs : list (Observation.t Timestamp))
    (patient_id encounter_id : string)
    (patient : Patient.t Timestamp) (encounter : Encounter.t Timestamp) :
  patients self = Some pats ->
  conditions self = Some conds ->
  medications self = Some meds ->
  encounters self = Some encs ->
  careplans self = Some plans ->
  observations self = Some obs ->
  find (fun r => Patient.Id r =? patient_id)%string pats = Some patient ->
  find (fun r => Encounter.Id r =? encounter_id)%string encs = Some encounter ->
  exists history,
    get_patient_history self patient_id encounter_id = inr history /\
    List.length (History.observations history) =
      count_rows (fun r => (Observation.PATIENT r =? patient_id)%string &&
                           (Observation.ENCOUNTER r =? encounter_id)%string) obs /\
    (forall text,
        In text (History.observations history) <->
        exists row, In row obs /\
                    Observation.PATIENT row = patient_id /\
                    Observation.ENCOUNTER row = encounter_id /\
                    text = rendered_observation (Observation.DESCRIPTION row)
                             (Observation.VALUE row) (Observation.UNITS row)).
Proof.
  intros Hpats Hconds Hmeds Hencs Hplans Hobs Hp He.
  eexists. split; [eapply get_patient_history_returns; eassumption |].
  simpl. rewrite process_observations_map. split.
  - now rewrite length_map, length_filter_count.
  - intros text. rewrite in_map_iff. split.
    + intros (row & <- & Hin). apply filter_In in Hin. destruct Hin as [Hin Hmask].
      apply andb_true_iff in Hmask. destruct Hmask as [Hpid Heid].
      apply String.eqb_eq in Hpid, Heid.
      exists row. repeat split; try assumption. apply observation_text_rendered.
    + intros (row & Hin & Hpid & Heid & ->). exists row. split.
      * apply observation_text_rendered.
      * apply filter_In. split; [assumption |].
        apply andb_true_iff. split; now apply String.eqb_eq.
Qed.

Lemma history_observations_scoped_witness :
  count_rows (fun r => (Observation.PATIENT r =? "ann")%string) Ward.the_observations = 3%nat /\
  exists history,
    get_patient_history Ward.generator "ann" "v2" = inr history /\
    List.length (History.observations history) = 2%nat /\
    In "Pain severity: 7 " (History.observations history) /\
    ~ In "Body Weight: 61 kg" (History.observations history).
Proof.
  split; [reflexivity |].
  destruct (@history_observations_scoped Ward.generator Ward.the_patients [] []
              Ward.the_encounters Ward.the_careplans Ward.the_observations
              "ann" "v2" Ward.ann Ward.second_visit
              eq_refl eq_refl eq_refl eq_refl eq_refl eq_refl eq_refl eq_refl)
    as (history & Hhist & Hlen & Hin).
  exists history. split; [exact Hhist | split; [exact Hlen | split]].
  - apply Hin. eexists. split; [right; left; reflexivity |]. repeat split.
  - intros Habs. apply Hin in Habs. destruct Habs as (row & Hrow & _ & Heid & Htext).
    simpl in Hrow. destruct Hrow as [<- | [<- | [<- | []]]]; discriminate.
Defined.

(** X11. Under NEW CAREPLANS the returned text of the medical note lists the
    descriptions, in table order, of exactly the care plans of the patient
    whose ENCOUNTER is the encounter asked for, whatever their START and
    STOP: a plan that starts after the visit is listed there although it is
    not ongoing. *)
Theorem medical_note_new_careplans
    (self : SyntheaPromptGenerator Timestamp)
    (encs : list (Encounter.t Timestamp)) (pats : list (Patient.t Timestamp))
    (conds : list (Condition.t Timestamp)) (meds : list (Medication.t Timestamp))
    (plans : list (CarePlan.t Timestamp))
    (encounter_id language : string)
    (encounter : Encounter.t Timestamp) (patient : Patient.t Timestamp) :
  encounters self = Some encs ->
  patients self = Some pats ->
  conditions self = Some conds ->
  medications self = Some meds ->
  careplans self = Some plans ->
  find (fun r => Encounter.Id r =? encounter_id)%string encs = Some encounter ->
  find (fun r => Patient.Id r =? Encounter.PATIENT encounter)%string pats = Some patient ->
  let T := Encounter.START encounter in
  exists (active_conditions current_medications ongoing_careplans : list string)
         (new_careplans : list (CarePlan.t Timestamp)),
    generate_medical_note_prompt self encounter_id language =
    inr (prompt_until_reason
           (str_int (year T) ++ "-" ++ pad2 (month T) ++ "-" ++ pad2 (day T))
           (Encounter.DESCRIPTION encounter)
           (year T - year (Patient.BIRTHDATE patient))
           (Patient.GENDER patient) ++
         prompt_from_reason
           (reason_for_visit (Encounter.REASONDESCRIPTION encounter))
           active_conditions current_medications ongoing_careplans
           (map (@CarePlan.DESCRIPTION _) new_careplans) language) /\
    (forall r, In r new_careplans <->
               In r plans /\ CarePlan.PATIENT r = Encounter.PATIENT encounter /\
               CarePlan.ENCOUNTER r = encounter_id) /\
    (exists keep, new_careplans = filter keep plans).
Proof.
  intros Hencs Hpats Hconds Hmeds Hplans He Hp T.
  pose proof (medical_note_prompt_returns self Hencs Hpats Hconds Hmeds Hplans
                encounter_id language He Hp) as Hret.
  cbv zeta in Hret. rewrite prompt_spelled_out in Hret.
  do 4 eexists. split; [exact Hret |]. split.
  - intros r. rewrite filter_In, andb_true_iff, !String.eqb_eq. reflexivity.
  - eexists. reflexivity.
Qed.

Lemma medical_note_new_careplans_witness :
  ~ Timestamp_le (CarePlan.START Ward.cast) (Encounter.START Ward.second_visit) /\
  exists new_careplans : list (CarePlan.t Timestamp),
    (exists cs ms os,
        generate_medical_note_prompt Ward.generator "v2" "English" =
        inr (prompt_until_reason "2015-07-09" "Emergency" 35 "F" ++
             prompt_from_reason "Fracture" cs ms os
               (map (@CarePlan.DESCRIPTION _) new_careplans) "English")) /\
    In Ward.cast new_careplans /\
    ~ In Ward.exercise new_careplans.
Proof.
  split.
  - intros Hle. apply Timestamp_leb_le in Hle. discriminate Hle.
  - destruct (@medical_note_new_careplans Ward.generator Ward.the_encounters
                Ward.the_patients [] [] Ward.the_careplans "v2" "English"
                Ward.second_visit Ward.ann
                eq_refl eq_refl eq_refl eq_refl eq_refl eq_refl eq_refl)
      as (cs & ms & os & ns & Hgen & Hns & _).
    exists ns. split; [| split].
    + exists cs, ms, os. exact Hgen.
    + apply Hns. split; [simpl; tauto | split; reflexivity].
    + intros Hin. apply Hns in Hin. destruct Hin as (_ & _ & Heid). discriminate Heid.
Defined.

Lemma incl_filter_weaker {R A : Type} (f : R -> A) (strong weak : R -> bool) (rows : list R) :
  (forall r, strong r = true -> weak r = true) ->
  incl (map f (filter strong rows)) (map f (filter weak rows)).
Proof.
  intros Himp a Hin. apply in_map_iff in Hin. destruct Hin as (r & <- & Hin).
  apply filter_In in Hin. destruct Hin as [Hin Hstrong].
  apply in_map. apply filter_In. split; [assumption | now apply Himp].
Qed.

Lemma andb_true_l (a b : bool) : a && b = true -> a = true.
Proof. now destruct a. Qed.

(** X12. The medical note is drawn from the same patient as the history of
    its encounter: on a loaded object where the encounter and its patient are
    found, the returned text of the note carries the age and gender of that
    history, and every item it lists under its four headers is an entry of
    the corresponding full list of the history (conditions, medications, and
    care plans for both care-plan lists). *)
Theorem note_lists_within_history
    (self : SyntheaPromptGenerator Timestamp)
    (pats : list (Patient.t Timestamp)) (conds : list (Condition.t Timestamp))
    (meds : list (Medication.t Timestamp)) (encs : list (Encounter.t Timestamp))
    (plans : list (CarePlan.t Timestamp)) (obs : list (Observation.t Timestamp))
    (encounter_id language : string)
    (encounter : Encounter.t Timestamp) (patient : Patient.t Timestamp) :
  patients self = Some pats ->
  conditions self = Some conds ->
  medications self = Some meds ->
  encounters self = Some encs ->
  careplans self = Some plans ->
  observations self = Some obs ->
  find (fun r => Encounter.Id r =? encounter_id)%string encs = Some encounter ->
  find (fun r => Patient.Id r =? Encounter.PATIENT encounter)%string pats = Some patient ->
  let T := Encounter.START encounter in
  exists history active_conditions current_medications ongoing_careplans new_careplans,
    get_patient_history self (Encounter.PATIENT encounter) encounter_id = inr history /\
    generate_medical_note_prompt self encounter_id language =
    inr (prompt_until_reason
           (str_int (year T) ++ "-" ++ pad2 (month T) ++ "-" ++ pad2 (day T))
           (Encounter.DESCRIPTION encounter)
           (age (History.demographics history))
           (gender (History.demographics history)) ++
         prompt_from_reason
           (reason_for_visit (Encounter.REASONDESCRIPTION encounter))
           active_conditions current_medications ongoing_careplans new_careplans
           language) /\
    incl active_conditions (History.conditions history) /\
    incl current_medications (History.medications history) /\
    incl ongoing_careplans (History.careplans history) /\
    incl new_careplans (History.careplans history).
Proof.
  intros Hpats Hconds Hmeds Hencs Hplans Hobs He Hp T.
  pose proof (medical_note_prompt_returns self Hencs Hpats Hconds Hmeds Hplans
                encounter_id language He Hp) as Hret.
  cbv zeta in Hret. rewrite prompt_spelled_out in Hret.
  do 5 eexists.
  split; [eapply get_patient_history_returns; eassumption |].
  split; [exact Hret |].
  simpl. repeat split; apply incl_filter_weaker; intros r Hr.
  - now apply andb_true_l, andb_true_l in Hr.
  - now apply andb_true_l, andb_true_l in Hr.
  - now apply andb_true_l, andb_true_l in Hr.
  - now apply andb_true_l in Hr.
Qed.

Lemma note_lists_within_history_witness :
  exists history cs ms os ns,
    get_patient_history Clinic.generator "p1" "e1" = inr history /\
    generate_medical_note_prompt Clinic.generator "e1" "English" =
    inr (prompt_until_reason "2020-01-01" "Checkup"
           (age (History.demographics history))
           (gender (History.demographics history)) ++
         prompt_from_reason "Not provided" cs ms os ns "English") /\
    incl cs (History.conditions history) /\
    incl ms (History.medications history) /\
    incl os (History.careplans history) /\
    incl ns (History.careplans history).
Proof.
  exact (@note_lists_within_history Clinic.generator
           Clinic.the_patients Clinic.the_conditions Clinic.the_medications
           Clinic.the_encounters Clinic.the_careplans Clinic.the_observations
           "e1" "English" Clinic.e1 Clinic.p1
           eq_refl eq_refl eq_refl eq_refl eq_refl eq_refl eq_refl eq_refl).
Defined.

(** ** What the history prompts leave out *)

(** X13. The care plans are read by [get_patient_history] but printed by none
    of the three prompts built on it: replacing the rows of a loaded
    careplans table by any other rows changes nothing in what the
    chain-of-thought, tree-of-thoughts and few-shot generators return. *)
Theorem history_prompts_ignore_careplans
    (D : Type) (HD : DateLike D) (self : SyntheaPromptGenerator D)
    (plans plans' : list (CarePlan.t D)) (encounter_id : string) :
  careplans self = Some plans ->
  generate_chain_of_thought_prompt (set_careplans plans' self) encounter_id =
    generate_chain_of_thought_prompt self encounter_id /\
  generate_tree_of_thoughts_prompt (set_careplans plans' self) encounter_id =
    generate_tree_of_thoughts_prompt self encounter_id /\
  generate_few_shot_prompt (set_careplans plans' self) encounter_id =
    generate_few_shot_prompt self encounter_id.
Proof.
  intros Hplans.
  unfold generate_chain_of_thought_prompt, generate_tree_of_thoughts_prompt,
    generate_few_shot_prompt, get_patient_history, set_careplans.
  simpl. rewrite Hplans.
  destruct (encounters self) as [encs |]; simpl; [| auto].
  destruct (iloc0 (filter (fun r => Encounter.Id r =? encounter_id)%string encs))
    as [e | encounter]; simpl; [auto |].
  destruct (patients self) as [pats |]; simpl; [| auto].
  destruct (iloc0 (filter (fun r => Patient.Id r =? Encounter.PATIENT encounter)%string pats))
    as [e | patient]; simpl; [auto |].
  destruct (conditions self) as [conds |]; simpl; [| auto].
  destruct (medications self) as [meds |]; simpl; [| auto].
  destruct (observations self) as [obs |]; simpl; [| auto].
  destruct (year_of (Encounter.START encounter)) as [e | start_year]; simpl; [auto |].
  destruct (year_of (Patient.BIRTHDATE patient)) as [e | birth_year]; simpl; auto.
Qed.

Lemma history_prompts_ignore_careplans_witness :
  generate_chain_of_thought_prompt (set_careplans [] Ward.generator) "v2" =
    generate_chain_of_thought_prompt Ward.generator "v2" /\
  generate_tree_of_thoughts_prompt (set_careplans [] Ward.generator) "v2" =
    generate_tree_of_thoughts_prompt Ward.generator "v2" /\
  generate_few_shot_prompt (set_careplans [] Ward.generator) "v2" =
    generate_few_shot_prompt Ward.generator "v2".
Proof.
  apply (@history_prompts_ignore_careplans Timestamp _ Ward.generator
           Ward.the_careplans [] "v2" eq_refl).
Defined.

(** ** Joining lines *)

Lemma concat_app (sep : string) (a b : list string) :
  a <> [] -> b <> [] ->
  String.concat sep (a ++ b) = String.concat sep a ++ sep ++ String.concat sep b.
Proof.
  intros Ha Hb. induction a as [| x a IH]; [congruence |].
  destruct a as [| y a].
  - destruct b as [| z b]; [congruence | reflexivity].
  - change (x ++ sep ++ String.concat sep ((y :: a) ++ b) =
            (x ++ sep ++ String.concat sep (y :: a)) ++ sep ++ String.concat sep b).
    rewrite IH by discriminate. now rewrite !append_assoc.
Qed.

Lemma format_list_nonempty (title : string) (items : list string) :
  items <> [] ->
  _format_list title items =
  title ++ String.concat nl (map (fun item => "- " ++ item) items).
Proof. destruct items; [congruence | reflexivity]. Qed.

(** X14. [_format_list] puts exactly one newline between two items and none
    after the last: the text for two non-empty lists, one after the other, is
    the text for the first, a newline, and the text for the second under an
    empty title. *)
Theorem format_list_app (title : string) (a b : list string) :
  a <> [] -> b <> [] ->
  _format_list title (a ++ b) = _format_list title a ++ nl ++ _format_list "" b.
Proof.
  intros Ha Hb.
  rewrite !format_list_nonempty; try assumption.
  - rewrite map_app, concat_app.
    + now rewrite append_assoc.
    + destruct a; [congruence | discriminate].
    + destruct b; [congruence | discriminate].
  - destruct a; [congruence | discriminate].
Qed.

Lemma format_list_app_witness :
  _format_list "Conditions" ["a"; "b"; "c"] =
  _format_list "Conditions" ["a"] ++ nl ++ _format_list "" ["b"; "c"].
Proof.
  apply (@format_list_app "Conditions" ["a"] ["b"; "c"]); discriminate.
Defined.

(** X15. [_format_dict] renders an empty mapping as the empty string, and a
    mapping made of two non-empty parts as the lines of the first, one
    newline, and the lines of the second, in order. *)
Theorem format_dict_app :
  _format_dict [] = "" /\
  forall a b : list (string * string),
    a <> [] -> b <> [] ->
    _format_dict (a ++ b) = _format_dict a ++ nl ++ _format_dict b.
Proof.
  split; [reflexivity |].
  intros a b Ha Hb. unfold _format_dict. rewrite map_app.
  apply concat_app.
  - destruct a; [congruence | discriminate].
  - destruct b; [congruence | discriminate].
Qed.

Lemma format_dict_app_witness :
  _format_dict [("age", "20"); ("gender", "M")] =
  _format_dict [("age", "20")] ++ nl ++ _format_dict [("gender", "M")].
Proof.
  apply (proj2 format_dict_app [("age", "20")] [("gender", "M")]); discriminate.
Defined.

(** ** From the files to the prompts *)

Lemma traverse_Forall2 {A B : Type} (f : A -> result B) (rows : list A) (rows' : list B) :
  traverse f rows = inr rows' -> Forall2 (fun a b => f a = inr b) rows rows'.
Proof.
  revert rows'. induction rows as [| a rows IH]; simpl; intros rows' H.
  - injection H as <-. constructor.
  - destruct (f a) as [e | b] eqn:Hb; simpl in H; [discriminate |].
    destruct (traverse f rows) as [e | bs]; simpl in H; [discriminate |].
    injection H as <-. constructor; [assumption | now apply IH].
Qed.

(** A load that returns has read the six files and converted their rows. *)
Lemma load_data_returned (to_datetime : string -> option Timestamp) (dir : DataDir)
    (self : SyntheaPromptGenerator string) (generator : SyntheaPromptGenerator Timestamp) :
  load_data to_datetime dir self = Returned generator ->
  exists raw_encs raw_conds raw_meds raw_pats raw_plans raw_obs encs conds meds pats plans obs,
    dir = mkDataDir (Some raw_encs) (Some raw_conds) (Some raw_meds)
                    (Some raw_pats) (Some raw_plans) (Some raw_obs) (not_found dir) /\
    generator = mkGenerator (Some encs) (Some conds) (Some meds)
                            (Some pats) (Some plans) (Some obs) /\
    Forall2 (fun a b => convert_encounter to_datetime a = inr b) raw_encs encs /\
    Forall2 (fun a b => convert_patient to_datetime a = inr b) raw_pats pats.
Proof.
  destruct dir as [[e |] [c |] [m |] [p |] [cp |] [o |] error];
    try (unfold load_data; simpl; discriminate).
  rewrite load_data_all_present.
  destruct (traverse (convert_encounter to_datetime) e) as [? | encs] eqn:He;
    simpl; [discriminate |].
  destruct (traverse (convert_condition to_datetime) c) as [? | conds];
    simpl; [discriminate |].
  destruct (traverse (convert_medication to_datetime) m) as [? | meds];
    simpl; [discriminate |].
  destruct (traverse (convert_careplan to_datetime) cp) as [? | plans];
    simpl; [discriminate |].
  destruct (traverse (convert_patient to_datetime) p) as [? | pats] eqn:Hp;
    simpl; [discriminate |].
  destruct (traverse (convert_observation to_datetime) o) as [? | obs];
    simpl; [discriminate |].
  intros H. injection H as <-.
  exists e, c, m, p, cp, o, encs, conds, meds, pats, plans, obs.
  repeat split; now apply traverse_Forall2.
Qed.

Lemma convert_encounter_keeps (to_datetime : string -> option Timestamp)
    (raw : Encounter.t string) (row : Encounter.t Timestamp) :
  convert_encounter to_datetime raw = inr row ->
  Encounter.Id row = Encounter.Id raw /\
  Encounter.PATIENT row = Encounter.PATIENT raw.
Proof.
  unfold convert_encounter.
  destruct (convert to_datetime (Encounter.START raw)); simpl; [discriminate |].
  destruct (convert_opt to_datetime (Encounter.STOP raw)); simpl; [discriminate |].
  intros H. injection H as <-. split; reflexivity.
Qed.

Lemma convert_patient_keeps (to_datetime : string -> option Timestamp)
    (raw : Patient.t string) (row : Patient.t Timestamp) :
  convert_patient to_datetime raw = inr row -> Patient.Id row = Patient.Id raw.
Proof.
  unfold convert_patient.
  destruct (convert to_datetime (Patient.BIRTHDATE raw)); simpl; [discriminate |].
  destruct (convert_opt to_datetime (Patient.DEATHDATE raw)); simpl; [discriminate |].
  intros H. injection H as <-. reflexivity.
Qed.

(** A lookup in the converted rows finds the conversion of what it finds in
    the rows of the file. *)
Lemma find_Forall2 {A B : Type} (R : A -> B -> Prop) (f : A -> bool) (g : B -> bool)
    (rows : list A) (rows' : list B) :
  Forall2 R rows rows' ->
  (forall a b, R a b -> g b = f a) ->
  match find f rows with
  | None => find g rows' = None
  | Some a => exists b, find g rows' = Some b /\ R a b
  end.
Proof.
  intros Hall Hfg. induction Hall as [| a b rows rows' Hab Hall IH]; simpl.
  - reflexivity.
  - rewrite (Hfg a b Hab). destruct (f a); [eauto | exact IH].
Qed.

(** The outcome of the four generators on a loaded object. *)
Lemma generators_all_or_none
    (self : SyntheaPromptGenerator Timestamp)
    (encs : list (Encounter.t Timestamp)) (conds : list (Condition.t Timestamp))
    (meds : list (Medication.t Timestamp)) (pats : list (Patient.t Timestamp))
    (plans : list (CarePlan.t Timestamp)) (obs : list (Observation.t Timestamp))
    (encounter_id language : string) :
  patients self = Some pats ->
  conditions self = Some conds ->
  medications self = Some meds ->
  encounters self = Some encs ->
  careplans self = Some plans ->
  observations self = Some obs ->
  match find (fun r => Encounter.Id r =? encounter_id)%string encs with
  | None => all_raise_IndexError self encounter_id language
  | Some encounter =>
      match find (fun r => Patient.Id r =? Encounter.PATIENT encounter)%string pats with
      | None => all_raise_IndexError self encounter_id language
      | Some _ => exists c t f s, all_return self encounter_id language c t f s
      end
  end.
Proof.
  intros Hpats Hconds Hmeds Hencs Hplans Hobs.
  destruct (find (fun r => Encounter.Id r =? encounter_id)%string encs)
    as [encounter |] eqn:He.
  - destruct (find (fun r => Patient.Id r =? Encounter.PATIENT encounter)%string pats)
      as [patient |] eqn:Hp.
    + pose proof (get_patient_history_returns self Hpats Hconds Hmeds Hencs Hplans Hobs
                    (Encounter.PATIENT encounter) encounter_id Hp He) as Hhist.
      pose proof (medical_note_prompt_returns self Hencs Hpats Hconds Hmeds Hplans
                    encounter_id language He Hp) as Hnote.
      cbv zeta in Hnote.
      unfold all_return, generate_chain_of_thought_prompt,
        generate_tree_of_thoughts_prompt, generate_few_shot_prompt.
      rewrite Hnote, Hencs. simpl. rewrite iloc0_filter_find, He. simpl.
      rewrite Hhist. simpl. do 4 eexists. repeat split.
    + unfold all_raise_IndexError, generate_chain_of_thought_prompt,
        generate_tree_of_thoughts_prompt, generate_few_shot_prompt,
        generate_medical_note_prompt, get_patient_history.
      rewrite Hencs, Hpats. simpl. rewrite !iloc0_filter_find, He. simpl.
      rewrite !iloc0_filter_find, Hp. repeat split.
  - unfold all_raise_IndexError, generate_chain_of_thought_prompt,
      generate_tree_of_thoughts_prompt, generate_few_shot_prompt,
      generate_medical_note_prompt.
    rewrite Hencs. simpl. rewrite !iloc0_filter_find, He. repeat split.
Qed.

(** X16. After a load that returned, what the four generators do with an
    encounter id is decided by the files: all four raise IndexError when no
    row of encounters.csv has that Id, or when the PATIENT of the first such
    row is the Id of no row of patients.csv; otherwise all four return a
    prompt. *)
Theorem prompts_follow_the_files
    (to_datetime : string -> option Timestamp) (dir : DataDir)
    (self : SyntheaPromptGenerator string) (generator : SyntheaPromptGenerator Timestamp)
    (raw_encs : list (Encounter.t string)) (raw_pats : list (Patient.t string))
    (encounter_id language : string) :
  load_data to_datetime dir self = Returned generator ->
  encounters_csv dir = Some raw_encs ->
  patients_csv dir = Some raw_pats ->
  match find (fun r => Encounter.Id r =? encounter_id)%string raw_encs with
  | None => all_raise_IndexError generator encounter_id language
  | Some raw_encounter =>
      match find (fun r => Patient.Id r =? Encounter.PATIENT raw_encounter)%string raw_pats with
      | None => all_raise_IndexError generator encounter_id language
      | Some _ => exists c t f s, all_return generator encounter_id language c t f s
      end
  end.
Proof.
  intros Hload Hraw_encs Hraw_pats.
  destruct (load_data_returned _ _ _ Hload)
    as (re & rc & rm & rp & rcp & ro & encs & conds & meds & pats & plans & obs
        & Hdir & -> & Hencs & Hpats).
  rewrite Hdir in Hraw_encs, Hraw_pats. simpl in Hraw_encs, Hraw_pats.
  injection Hraw_encs as ->. injection Hraw_pats as ->.
  pose proof (@generators_all_or_none
                (mkGenerator (Some encs) (Some conds) (Some meds)
                             (Some pats) (Some plans) (Some obs))
                encs conds meds pats plans obs encounter_id language
                eq_refl eq_refl eq_refl eq_refl eq_refl eq_refl) as Hgen.
  pose proof (find_Forall2 (fun r => Encounter.Id r =? encounter_id)%string
                (fun r => Encounter.Id r =? encounter_id)%string Hencs) as Hfe.
  destruct (find (fun r => Encounter.Id r =? encounter_id)%string raw_encs)
    as [raw_encounter |].
  - destruct Hfe as (encounter & Hfind & Hconv).
    { intros a b Hab. now destruct (convert_encounter_keeps _ _ Hab) as [-> _]. }
    rewrite Hfind in Hgen.
    destruct (convert_encounter_keeps _ _ Hconv) as [_ Hpatient].
    rewrite Hpatient in Hgen.
    pose proof (find_Forall2
                  (fun r => Patient.Id r =? Encounter.PATIENT raw_encounter)%string
                  (fun r => Patient.Id r =? Encounter.PATIENT raw_encounter)%string Hpats)
      as Hfp.
    destruct (find (fun r => Patient.Id r =? Encounter.PATIENT raw_encounter)%string raw_pats).
    + destruct Hfp as (patient & Hfindp & _).
      { intros a b Hab. now rewrite (convert_patient_keeps _ _ Hab). }
      now rewrite Hfindp in Hgen.
    + rewrite Hfp in Hgen; [exact Hgen |].
      intros a b Hab. now rewrite (convert_patient_keeps _ _ Hab).
  - rewrite Hfe in Hgen; [exact Hgen |].
    intros a b Hab. now destruct (convert_encounter_keeps _ _ Hab) as [-> _].
Qed.

Lemma prompts_follow_the_files_witness :
  (exists c t f s,
      all_return
        (mkGenerator
           (Some [Encounter.mk "e1" "p1" (midnight 2020 1 1) None "Checkup" None])
           (Some [Condition.mk "p1" (midnight 2019 5 1) None "Hypertension"])
           (Some [])
           (Some [Patient.mk "p1" (midnight 2000 12 31) None "M" "white" "nonhispanic"])
           (Some []) (Some []))
        "e1" "English" c t f s).
Proof.
  exact (@prompts_follow_the_files Clinic.to_datetime Clinic.dir_complete
           (__init__ string) _ _ _ "e1" "English" eq_refl eq_refl eq_refl).
Defined.

(** X17. After a load that returned, a run is all or nothing.  Either every
    generator returns for the encounter id, and the run ends normally having
    written the selected sections in the order chain of thought, tree of
    thoughts, few-shot, simplification; or none does, and the run ends with
    IndexError after the header and dashes of the first selected section
    (normally and without output when none is selected). *)
Theorem main_all_or_nothing
    (to_datetime : string -> option Timestamp) (listdir : string -> DataDir)
    (args : Args.t) (generator : SyntheaPromptGenerator Timestamp) :
  load_data to_datetime (listdir (Args.data_path args)) (__init__ string) =
    Returned generator ->
  (exists c t f s,
      all_return generator (Args.encounter args) (Args.language args) c t f s /\
      main to_datetime listdir args =
      ((if Args.chain args then section_text "Chain of Thought Prompt:" c else "") ++
       (if Args.tree args then section_text (nl ++ "Tree of Thoughts Prompt:") t else "") ++
       (if Args.few_shot args
        then section_text (nl ++ "Few-Shot Learning Prompt:") f else "") ++
       (if Args.simplification args
        then section_text (nl ++ "Medical Note Simplification Prompt:") s else ""),
       ret tt)) \/
  (all_raise_IndexError generator (Args.encounter args) (Args.language args) /\
   main to_datetime listdir args =
   if Args.chain args then
     ("Chain of Thought Prompt:" ++ nl ++ dashes ++ nl, inl IndexError)
   else if Args.tree args then
     (nl ++ "Tree of Thoughts Prompt:" ++ nl ++ dashes ++ nl, inl IndexError)
   else if Args.few_shot args then
     (nl ++ "Few-Shot Learning Prompt:" ++ nl ++ dashes ++ nl, inl IndexError)
   else if Args.simplification args then
     (nl ++ "Medical Note Simplification Prompt:" ++ nl ++ dashes ++ nl, inl IndexError)
   else ("", ret tt)).
Proof.
  intros Hload.
  destruct (load_data_returned _ _ _ Hload)
    as (re & rc & rm & rp & rcp & ro & encs & conds & meds & pats & plans & obs
        & _ & Hgenerator & _ & _).
  assert (Hcases : (exists c t f s,
                       all_return generator (Args.encounter args) (Args.language args) c t f s)
                   \/ all_raise_IndexError generator (Args.encounter args) (Args.language args)).
  { pose proof (@generators_all_or_none generator encs conds meds pats plans obs
                  (Args.encounter args) (Args.language args)) as Hgen.
    rewrite Hgenerator in Hgen |- *.
    specialize (Hgen eq_refl eq_refl eq_refl eq_refl eq_refl eq_refl).
    destruct (find _ encs) as [encounter |]; [| now right].
    destruct (find _ pats); [now left | now right]. }
  destruct Hcases as [(c & t & f & s & Hall) | Hnone].
  - left. exists c, t, f, s. split; [exact Hall |].
    destruct Hall as (Hc & Ht & Hf & Hs).
    unfold main. rewrite Hload, Hc, Ht, Hf, Hs. unfold section_text.
    destruct (Args.chain args), (Args.tree args), (Args.few_shot args),
      (Args.simplification args); simpl; rewrite ?append_assoc; reflexivity.
  - right. split; [exact Hnone |].
    destruct Hnone as (Hc & Ht & Hf & Hs).
    unfold main. rewrite Hload, Hc, Ht, Hf, Hs.
    destruct (Args.chain args), (Args.tree args), (Args.few_shot args),
      (Args.simplification args); reflexivity.
Qed.

Lemma main_all_or_nothing_witness :
  exists c,
    generate_chain_of_thought_prompt
      (mkGenerator
         (Some [Encounter.mk "e1" "p1" (midnight 2020 1 1) None "Checkup" None])
         (Some [Condition.mk "p1" (midnight 2019 5 1) None "Hypertension"])
         (Some [])
         (Some [Patient.mk "p1" (midnight 2000 12 31) None "M" "white" "nonhispanic"])
         (Some []) (Some []))
      "e1" = inr c /\
    main Clinic.to_datetime Ward.disk (Ward.args "e1" true) =
    (section_text "Chain of Thought Prompt:" c ++ "", ret tt).
Proof.
  destruct (@main_all_or_nothing Clinic.to_datetime Ward.disk
              (Ward.args "e1" true)
              (mkGenerator
                 (Some [Encounter.mk "e1" "p1" (midnight 2020 1 1) None "Checkup" None])
                 (Some [Condition.mk "p1" (midnight 2019 5 1) None "Hypertension"])
                 (Some [])
                 (Some [Patient.mk "p1" (midnight 2000 12 31) None "M" "white" "nonhispanic"])
                 (Some []) (Some []))
              eq_refl)
    as [(c & t & f & s & (Hc & _) & Hmain) | ((Hc & _) & _)].
  - exists c. split; [exact Hc | exact Hmain].
  - vm_compute in Hc. discriminate Hc.
Defined.
